(** * Random-forest classifier wrapper (custom-algorithms/random-forest/algorithm.py)

    The class [Algorithm] of the source is glue over scikit-learn and numpy:
    it resolves four hyperparameters from a dictionary, owns one
    [StandardScaler] and one [RandomForestClassifier] object, and sequences
    "coerce, standardize, delegate, report".

    The embedding keeps that shape.  The two library objects are abstract
    states on which every library method acts as a state transformer that may
    raise (a Python method call can mutate its receiver and can throw); the
    wrapper's methods are written in a small state/exception/output monad over
    the record of the wrapper's attributes; [print] calls append structured
    lines to the output.  What scikit-learn and numpy themselves do is not
    code of this repository: it enters the theorems as explicit hypotheses
    (the documented contract of the library call involved), and a small
    executable library, [toy], shows that each set of hypotheses can be met. *)

From stdpp Require Import gmap strings list sorting.
From Stdlib Require Import ZArith Sorting.Sorted.

(** ** Python values found in params.json *)

Inductive pyval :=
| PyNone
| PyBool (b : bool)
| PyInt (z : Z)
| PyFloat (mantissa exponent : Z)
| PyStr (s : string)
| PyJson (text : string).

(** ** Results of calls that may raise *)

Inductive outcome (E A : Type) :=
| Return (a : A)
| Raise (e : E).
Arguments Return {E A} a.
Arguments Raise {E A} e.

Definition is_raise {E A} (o : outcome E A) : bool :=
  match o with Raise _ => true | Return _ => false end.

(** ** The library surface used by the wrapper

    Arrays are kept as the nested rows [np.array] builds them from.  The
    first group of fields are the calls made by algorithm.py, with the
    receiver's state threaded through.  [entropy] is the ambient randomness
    (numpy's global generator) that [RandomForestClassifier.fit] can read.
    The second group are observers of the library objects; the wrapper never
    calls them, they only serve to state the library's contract. *)

Class Sklearn := {
  num : Type;
  label : Type;
  exn : Type;
  entropy : Type;
  scaler_obj : Type;
  forest_obj : Type;

  IndexError : exn;
  np_array : list (list num) → outcome exn (list (list num));
  np_array_labels : list label → outcome exn (list label);
  np_unique : list label → list label;
  np_unique_counts : list label → list (label * nat);
  np_argsort : list num → list nat;

  StandardScaler : scaler_obj;
  fit_transform : scaler_obj → list (list num) → outcome exn (list (list num)) * scaler_obj;
  transform : scaler_obj → list (list num) → outcome exn (list (list num)) * scaler_obj;

  RandomForestClassifier : pyval → pyval → pyval → pyval → Z → forest_obj;
  rf_fit : entropy → forest_obj → list (list num) → list label → outcome exn unit * forest_obj;
  rf_score : forest_obj → list (list num) → list label → outcome exn num * forest_obj;
  rf_predict : forest_obj → list (list num) → outcome exn (list label) * forest_obj;
  rf_predict_proba : forest_obj → list (list num) → outcome exn (list (list num)) * forest_obj;
  feature_importances_ : forest_obj → option (list num);

  scaler_fitted : scaler_obj → bool;
  scaler_n_features_in_ : scaler_obj → nat;
  forest_fitted : forest_obj → bool;
  n_features_in_ : forest_obj → nat;
  classes_ : forest_obj → list label;
  check_array : list (list num) → bool;
  scale_row : scaler_obj → list num → list num;
  predict_row : forest_obj → list num → label;
  num_le : num → num → Prop
}.

Section Wrapper.
Context {L : Sklearn}.

Abbreviation matrix := (list (list num)).

(** [X.shape] of the array [np.array] builds from nested rows. *)
Definition shape (X : matrix) : list nat :=
  match X with
  | [] => [0]
  | r :: _ => [length X; length r]
  end.

Definition ncols (X : matrix) : nat := length (hd [] X).

(** ** Printed status lines, one constructor per [print] of the source *)

Inductive line :=
| InitBanner
| InitNEstimators (v : pyval)
| InitMaxDepth (v : pyval)
| InitMinSamplesSplit (v : pyval)
| InitRandomState (v : pyval)
| FitStart
| FitShapes (xshape yshape : list nat)
| FitClasses (cs : list label)
| FitStandardizing
| FitTraining (n : pyval)
| FitCompleted
| FitAccuracy (acc : num)
| FitNumFeatures (n : nat)
| FitNumSamples (n : nat)
| FitTopHeader
| FitFeature (idx : nat) (importance : num)
| PredStart
| PredShape (xshape : list nat)
| PredGenerated (n : nat)
| PredDistribution (hist : list (label * nat)).

(** ** The object: its attributes *)

Record Algorithm := mkAlgorithm {
  n_estimators : pyval;
  max_depth : pyval;
  min_samples_split : pyval;
  random_state : pyval;
  scaler : scaler_obj;
  model : forest_obj
}.

Definition set_scaler (s : scaler_obj) (a : Algorithm) : Algorithm :=
  mkAlgorithm (n_estimators a) (max_depth a) (min_samples_split a)
              (random_state a) s (model a).

Definition set_model (m : forest_obj) (a : Algorithm) : Algorithm :=
  mkAlgorithm (n_estimators a) (max_depth a) (min_samples_split a)
              (random_state a) (scaler a) m.

(** ** Method bodies: state of [self], exceptions, printed output

    A raised exception keeps the mutations and the output made before it. *)

Definition M (A : Type) : Type := Algorithm → outcome exn A * Algorithm * list line.

Definition ret {A} (x : A) : M A := λ a, (Return x, a, []).

Definition bind {A B} (m : M A) (k : A → M B) : M B :=
  λ a, match m a with
       | (Return x, a', out) =>
           let '(r, a'', out') := k x a' in (r, a'', out ++ out')
       | (Raise e, a', out) => (Raise e, a', out)
       end.

Definition print (l : line) : M unit := λ a, (Return tt, a, [l]).

Definition lift {A} (o : outcome exn A) : M A := λ a, (o, a, []).

Definition gets {A} (f : Algorithm → A) : M A := λ a, (Return (f a), a, []).

(** [self.scaler.method(...)] and [self.model.method(...)] *)
Definition call_scaler {A} (f : scaler_obj → outcome exn A * scaler_obj) : M A :=
  λ a, let '(r, s) := f (scaler a) in (r, set_scaler s a, []).

Definition call_model {A} (f : forest_obj → outcome exn A * forest_obj) : M A :=
  λ a, let '(r, m) := f (model a) in (r, set_model m a, []).

(** [seq[i]] *)
Definition index {A} (l : list A) (i : nat) : M A :=
  match l !! i with
  | Some x => ret x
  | None => lift (Raise IndexError)
  end.

Fixpoint for_each {A} (l : list A) (body : A → M unit) : M unit :=
  match l with
  | [] => ret tt
  | x :: l' => bind (body x) (λ _, for_each l' body)
  end.

(** [v[-n:]] *)
Definition lastn {A} (n : nat) (l : list A) : list A := drop (length l - n) l.

End Wrapper.

Declare Scope py_scope.
Delimit Scope py_scope with py.
Notation "'let!' x ':=' m 'in' k" := (bind m (λ x, k))
  (at level 10, x name, m at level 100, k at level 200) : py_scope.
Notation "m '>>>' k" := (bind m (λ _, k))
  (at level 100, k at level 200, right associativity) : py_scope.

Section Methods.
Context {L : Sklearn}.
Local Open Scope py_scope.

Abbreviation matrix := (list (list num)).

(** [Algorithm.__init__] *)
Definition init (params : gmap string pyval) : Algorithm * list line :=
  let n_estimators := default (PyInt 100) (params !! "n_estimators"%string) in
  let max_depth := default PyNone (params !! "max_depth"%string) in
  let min_samples_split := default (PyInt 2) (params !! "min_samples_split"%string) in
  let random_state := default (PyInt 42) (params !! "random_state"%string) in
  (mkAlgorithm n_estimators max_depth min_samples_split random_state
     StandardScaler
     (RandomForestClassifier n_estimators max_depth min_samples_split
        random_state (-1)),
   [InitBanner; InitNEstimators n_estimators; InitMaxDepth max_depth;
    InitMinSamplesSplit min_samples_split; InitRandomState random_state]).

(** [np.argsort(importances)[-5:][::-1]] *)
Definition top_indices (importances : list num) : list nat :=
  reverse (lastn 5 (np_argsort importances)).

(** [print(f"   - Feature {idx}: {importances[idx]:.4f}")] *)
Definition feature_line (importances : list num) (idx : nat) : M unit :=
  let! v := index importances idx in print (FitFeature idx v).

Definition report_importances (importances : list num) : M unit :=
  print FitTopHeader >>>
  for_each (top_indices importances) (feature_line importances).

(** [Algorithm.fit] *)
Definition fit (g : entropy) (X : matrix) (y : list label) : M unit :=
  print FitStart >>>
  let! X := lift (np_array X) in
  let! y := lift (np_array_labels y) in
  print (FitShapes (shape X) [length y]) >>>
  print (FitClasses (np_unique y)) >>>
  print FitStandardizing >>>
  let! X_scaled := call_scaler (λ s, fit_transform s X) in
  let! n := gets n_estimators in
  print (FitTraining n) >>>
  call_model (λ m, rf_fit g m X_scaled y) >>>
  let! train_accuracy := call_model (λ m, rf_score m X_scaled y) in
  print FitCompleted >>>
  print (FitAccuracy train_accuracy) >>>
  let! nf := index (shape X) 1 in
  print (FitNumFeatures nf) >>>
  let! ns := index (shape X) 0 in
  print (FitNumSamples ns) >>>
  let! m := gets model in
  match feature_importances_ m with
  | Some importances => report_importances importances
  | None => ret tt
  end.

(** [Algorithm.predict] *)
Definition predict (X : matrix) : M (list label) :=
  print PredStart >>>
  let! X := lift (np_array X) in
  print (PredShape (shape X)) >>>
  let! X_scaled := call_scaler (λ s, transform s X) in
  let! predictions := call_model (λ m, rf_predict m X_scaled) in
  print (PredGenerated (length predictions)) >>>
  print (PredDistribution (np_unique_counts predictions)) >>>
  ret predictions.

(** [Algorithm.predict_proba] *)
Definition predict_proba (X : matrix) : M matrix :=
  let! X := lift (np_array X) in
  let! X_scaled := call_scaler (λ s, transform s X) in
  call_model (λ m, rf_predict_proba m X_scaled).

(** Components of a run. *)
Definition result {A} (r : outcome exn A * Algorithm * list line) : outcome exn A := r.1.1.
Definition final {A} (r : outcome exn A * Algorithm * list line) : Algorithm := r.1.2.
Definition output {A} (r : outcome exn A * Algorithm * list line) : list line := r.2.

End Methods.

(** * Derived notions used by the statements *)

Section Notions.
Context {L : Sklearn}.

(** Both library objects of the wrapper hold fitted state. *)
Definition fitted (a : Algorithm) : bool :=
  scaler_fitted (scaler a) && forest_fitted (model a).

(** Wrappers on which [fit] has never been called: fresh from [__init__],
    possibly after calls of [predict] and [predict_proba]. *)
Inductive never_fitted : Algorithm → Prop :=
| never_fitted_init params :
    never_fitted (init params).1
| never_fitted_predict a X :
    never_fitted a → never_fitted (final (predict X a))
| never_fitted_predict_proba a X :
    never_fitted a → never_fitted (final (predict_proba X a)).

(** [p] lists the positions of [v] from the smallest value to the largest,
    which is what [np.argsort] returns on an array without NaN. *)
Definition ascending_by (v : list num) (i j : nat) : Prop :=
  ∀ vi vj, v !! i = Some vi → v !! j = Some vj → num_le vi vj.

(** A client's use of one wrapper: method calls made one after another; a
    call that raises leaves [self] as the exception found it, and the client
    goes on with the next call. *)
Inductive call :=
| CallFit (g : entropy) (X : list (list num)) (y : list label)
| CallPredict (X : list (list num))
| CallPredictProba (X : list (list num)).

Definition do_call (c : call) (a : Algorithm) : Algorithm :=
  match c with
  | CallFit g X y => final (fit g X y a)
  | CallPredict X => final (predict X a)
  | CallPredictProba X => final (predict_proba X a)
  end.

Definition session (cs : list call) (a : Algorithm) : Algorithm :=
  foldl (λ a c, do_call c a) a cs.

Definition same_hyperparameters (a' a : Algorithm) : Prop :=
  n_estimators a' = n_estimators a ∧ max_depth a' = max_depth a ∧
  min_samples_split a' = min_samples_split a ∧ random_state a' = random_state a.

(** A method body that leaves the four hyperparameter attributes alone,
    however it ends. *)
Definition keeps_hyperparameters {A} (m : M A) : Prop :=
  ∀ a, same_hyperparameters (final (m a)) a.

(** A row of probabilities sums to one: the library's sum of the row
    ([row.sum()]) is close to [one] in the library's sense ([np.isclose],
    equality within its floating-point tolerance). *)
Definition sums_to_one (row_sum : list num → num) (isclose : num → num → Prop)
    (one : num) (row : list num) : Prop :=
  isclose (row_sum row) one.

End Notions.

(** * A small executable library

    [toy] implements the library surface over integers: a scaler that
    centers each column on its (integer) mean, and a "forest" that memorizes
    the training rows, in an order that depends on the seed, and labels a row
    like the nearest memorized row.  It validates its inputs and refuses to
    transform or predict before being fitted, as scikit-learn does.  It is
    used to run the wrapper on concrete data and to show that the library
    contracts assumed by the theorems below can be met together. *)

Module Toy.

Inductive toy_exn := NotFittedError | ValueError | ToyIndexError.

Definition width (X : list (list Z)) : nat := length (hd [] X).

Definition valid (X : list (list Z)) : bool :=
  match X with
  | [] => false
  | r :: rows =>
      negb (length r =? 0) && forallb (λ r', length r' =? length r) rows
  end.

(** Scaler: the learned state is the list of column means. *)
Definition column_sum (X : list (list Z)) (j : nat) : Z :=
  foldr (λ r acc, nth j r 0 + acc)%Z 0%Z X.

Definition means (X : list (list Z)) : list Z :=
  (λ j, column_sum X j `div` Z.of_nat (length X))%Z <$> seq 0 (width X).

Fixpoint center (mu r : list Z) : list Z :=
  match r with
  | [] => []
  | x :: r' => (x - hd 0 mu)%Z :: center (tl mu) r'
  end.

Definition scale (s : option (list Z)) (r : list Z) : list Z :=
  match s with Some mu => center mu r | None => r end.

Definition scaler_fit_transform (s : option (list Z)) (X : list (list Z))
  : outcome toy_exn (list (list Z)) * option (list Z) :=
  if valid X then (Return (center (means X) <$> X), Some (means X))
  else (Raise ValueError, None).

Definition scaler_transform (s : option (list Z)) (X : list (list Z))
  : outcome toy_exn (list (list Z)) * option (list Z) :=
  match s with
  | None => (Raise NotFittedError, s)
  | Some mu =>
      if valid X && (width X =? length mu)
      then (Return (center mu <$> X), s)
      else (Raise ValueError, s)
  end.

(** Forest: hyperparameters and, once fitted, the input width and the
    memorized sample. *)
Record forest := mkForest {
  hp_n_estimators : pyval;
  hp_max_depth : pyval;
  hp_min_samples_split : pyval;
  hp_random_state : pyval;
  hp_n_jobs : Z;
  trained : option (nat * list (list Z * Z))
}.

Definition seed_of (g : Z) (rs : pyval) : Z :=
  match rs with PyInt z => z | _ => g end.

Definition forest_fit (g : Z) (m : forest) (X : list (list Z)) (y : list Z)
  : outcome toy_exn unit * forest :=
  if valid X && (length X =? length y) then
    let k := Z.to_nat (seed_of g (hp_random_state m) `mod` Z.of_nat (length X)) in
    (Return tt,
     mkForest (hp_n_estimators m) (hp_max_depth m) (hp_min_samples_split m)
       (hp_random_state m) (hp_n_jobs m) (Some (width X, rotate k (zip X y))))
  else (Raise ValueError, m).

Fixpoint dist (r1 r2 : list Z) : Z :=
  match r1, r2 with
  | a :: r1', b :: r2' => (Z.abs (a - b) + dist r1' r2')%Z
  | _, _ => 0%Z
  end.

Definition nearest (data : list (list Z * Z)) (r : list Z) : Z :=
  match data with
  | [] => 0%Z
  | (r0, l0) :: rest =>
      (foldl (λ best p, if (dist r p.1 <? best.1)%Z then (dist r p.1, p.2) else best)
         (dist r r0, l0) rest).2
  end.

Definition label_of (m : forest) (r : list Z) : Z :=
  match trained m with Some (_, data) => nearest data r | None => 0%Z end.

Definition unique (l : list Z) : list Z := merge_sort Z.le (remove_dups l).

Definition unique_counts (l : list Z) : list (Z * nat) :=
  (λ c, (c, length (filter (λ x, x = c) l))) <$> unique l.

Definition classes (m : forest) : list Z :=
  match trained m with Some (_, data) => unique (data.*2) | None => [] end.

Definition proba_of (m : forest) (r : list Z) : list Z :=
  (λ c, if (c =? label_of m r)%Z then 1 else 0)%Z <$> classes m.

Definition guarded {A} (m : forest) (X : list (list Z)) (f : list Z → A)
  : outcome toy_exn (list A) * forest :=
  match trained m with
  | None => (Raise NotFittedError, m)
  | Some (w, _) =>
      if valid X && (width X =? w) then (Return (f <$> X), m)
      else (Raise ValueError, m)
  end.

Definition forest_score (m : forest) (X : list (list Z)) (y : list Z)
  : outcome toy_exn Z * forest :=
  match guarded m X (label_of m) with
  | (Return p, _) =>
      (Return (Z.of_nat (length (filter (λ q, q.1 = q.2) (zip p y))) * 10000
               `div` Z.of_nat (length X))%Z, m)
  | (Raise e, _) => (Raise e, m)
  end.

Definition importances (m : forest) : option (list Z) :=
  match trained m with
  | Some (w, data) =>
      Some ((λ j, foldr (λ p acc, Z.abs (nth j p.1 0) + acc) 0 data)%Z <$> seq 0 w)
  | None => None
  end.

Definition le_at (v : list Z) (i j : nat) : Prop := (v !!! i ≤ v !!! j)%Z.

#[local] Instance le_at_dec v i j : Decision (le_at v i j).
Proof. unfold le_at. apply _. Defined.

Definition argsort (v : list Z) : list nat :=
  merge_sort (le_at v) (seq 0 (length v)).

Definition toy : Sklearn := {|
  num := Z;
  label := Z;
  exn := toy_exn;
  entropy := Z;
  scaler_obj := option (list Z);
  forest_obj := forest;
  IndexError := ToyIndexError;
  np_array := λ X, if valid X then Return X else Raise ValueError;
  np_array_labels := Return;
  np_unique := unique;
  np_unique_counts := unique_counts;
  np_argsort := argsort;
  StandardScaler := None;
  fit_transform := scaler_fit_transform;
  transform := scaler_transform;
  RandomForestClassifier := λ ne md mss rs nj, mkForest ne md mss rs nj None;
  rf_fit := forest_fit;
  rf_score := forest_score;
  rf_predict := λ m X, guarded m X (label_of m);
  rf_predict_proba := λ m X, guarded m X (proba_of m);
  feature_importances_ := importances;
  scaler_fitted := λ s, bool_decide (is_Some s);
  scaler_n_features_in_ := λ s, from_option length 0 s;
  forest_fitted := λ m, bool_decide (is_Some (trained m));
  n_features_in_ := λ m, from_option fst 0 (trained m);
  classes_ := classes;
  check_array := valid;
  scale_row := scale;
  predict_row := label_of;
  num_le := Z.le
|}.

(** Concrete data: four training rows over two features, two classes. *)
Definition X_train : list (list Z) := [[1; 10]; [3; 20]; [7; 30]; [9; 40]]%Z.
Definition y_train : list Z := [0; 0; 1; 1]%Z.
Definition X_test : list (list Z) := [[1; 12]; [9; 33]]%Z.
Definition X_other : list (list Z) := [[100; 7]; [300; 9]]%Z.
Definition y_other : list Z := [5; 6]%Z.

(** Two training rows over six features; features 2 and 3 tie. *)
Definition X_wide : list (list Z) := [[0; 0; 0; 0; 0; 0]; [2; 8; 4; 4; 12; 6]]%Z.
Definition y_wide : list Z := [0; 1]%Z.

(** Dictionaries that agree on the recognized options. *)
Definition params_a : gmap string pyval :=
  {[ "n_estimators"%string := PyInt 10; "random_state"%string := PyInt 0 ]}.
Definition params_b : gmap string pyval :=
  <["verbose"%string := PyBool true]> params_a.

Definition fresh : @Algorithm toy := (@init toy ∅).1.
Definition trained_once : @Algorithm toy := final (@fit toy 7%Z X_train y_train fresh).

(** Inputs the library refuses: rows of unequal length, and fewer labels
    than training rows. *)
Definition X_ragged : list (list Z) := [[1; 2]; [3]]%Z.

End Toy.

(** * Facts about runs of the three methods *)

Section Runs.
Context {L : Sklearn}.

Lemma set_scaler_scaler s a : scaler (set_scaler s a) = s.
Proof. reflexivity. Qed.

Lemma set_model_model m a : model (set_model m a) = m.
Proof. reflexivity. Qed.

Lemma set_scaler_id a : set_scaler (scaler a) a = a.
Proof. by destruct a. Qed.

Lemma set_model_id a : set_model (model a) a = a.
Proof. by destruct a. Qed.

(** The run of [predict], call by call. *)
Lemma predict_run X a :
  predict X a =
  match np_array X with
  | Raise e => (Raise e, a, [PredStart])
  | Return X' =>
      match transform (scaler a) X' with
      | (Raise e, s) => (Raise e, set_scaler s a, [PredStart; PredShape (shape X')])
      | (Return X_scaled, s) =>
          match rf_predict (model a) X_scaled with
          | (Raise e, m) =>
              (Raise e, set_model m (set_scaler s a), [PredStart; PredShape (shape X')])
          | (Return predictions, m) =>
              (Return predictions, set_model m (set_scaler s a),
               [PredStart; PredShape (shape X'); PredGenerated (length predictions);
                PredDistribution (np_unique_counts predictions)])
          end
      end
  end.
Proof.
  unfold predict, bind, print, lift, call_scaler, call_model, ret; simpl.
  destruct (np_array X) as [X'|e]; [|done].
  destruct (transform (scaler a) X') as [[Xs|e] s]; [|done]. simpl.
  by destruct (rf_predict (model a) Xs) as [[p|e] m].
Qed.

(** The run of [predict_proba], call by call. *)
Lemma predict_proba_run X a :
  predict_proba X a =
  match np_array X with
  | Raise e => (Raise e, a, [])
  | Return X' =>
      match transform (scaler a) X' with
      | (Raise e, s) => (Raise e, set_scaler s a, [])
      | (Return X_scaled, s) =>
          let '(r, m) := rf_predict_proba (model a) X_scaled in
          (r, set_model m (set_scaler s a), [])
      end
  end.
Proof.
  unfold predict_proba, bind, lift, call_scaler, call_model; simpl.
  destruct (np_array X) as [X'|e]; [|done].
  destruct (transform (scaler a) X') as [[Xs|e] s]; [|done]. simpl.
  by destruct (rf_predict_proba (model a) Xs) as [r m].
Qed.

End Runs.

Section FitRuns.
Context {L : Sklearn}.

(** The reporting loop reads [self] but never writes it; when it completes,
    it has printed one line per index, in the order of the list. *)
Lemma for_each_feature_run imps l a :
  match for_each l (feature_line imps) a with
  | (Return _, a', out) =>
      a' = a ∧ ∃ vals, Forall2 (λ i v, imps !! i = Some v) l vals ∧
                       out = zip_with FitFeature l vals
  | (Raise _, a', _) => a' = a
  end.
Proof.
  revert a. induction l as [|i l IH]; intros a; simpl.
  - split; [done|]. exists []. split; [constructor|done].
  - unfold bind at 1. unfold feature_line at 1, index, bind, ret, lift, print.
    destruct (imps !! i) as [v|] eqn:Hi; simpl; [|done].
    specialize (IH a).
    destruct (for_each l (feature_line imps) a) as [[[[]|e] a'] out]; [|done].
    destruct IH as [-> (vals & Hvals & ->)]. split; [done|].
    exists (v :: vals). split; [by constructor|done].
Qed.

(** A sequenced pair completes only if its first half does. *)
Lemma bind_completes {A B} (m : M A) (k : A → M B) a b :
  result (bind m k a) = Return b →
  ∃ x a' out,
    m a = (Return x, a', out) ∧
    result (k x a') = Return b ∧
    final (bind m k a) = final (k x a') ∧
    output (bind m k a) = out ++ output (k x a').
Proof.
  unfold result, final, output, bind.
  destruct (m a) as [[[x|e] a'] out]; simpl; [|done].
  intros H. exists x, a', out.
  by destruct (k x a') as [[r a''] out']; simpl in *.
Qed.

Lemma report_importances_run imps a :
  match report_importances imps a with
  | (Return _, a', out) =>
      a' = a ∧ ∃ vals, Forall2 (λ i v, imps !! i = Some v) (top_indices imps) vals ∧
                       out = FitTopHeader :: zip_with FitFeature (top_indices imps) vals
  | (Raise _, a', _) => a' = a
  end.
Proof.
  unfold report_importances, bind, print.
  pose proof (for_each_feature_run imps (top_indices imps) a) as H.
  destruct (for_each (top_indices imps) (feature_line imps) a) as [[[[]|e] a'] out];
    simpl in *; [|done].
  destruct H as [-> (vals & Hvals & ->)]. split; [done|]. by exists vals.
Qed.

(** What a completed [fit] has done: the calls it made, in order, the state
    it leaves in [self], and the tail of its output. *)
Lemma fit_success g X y a0 :
  result (fit g X y a0) = Return tt →
  ∃ X' y' X_scaled s1 m1 acc m2,
    np_array X = Return X' ∧
    np_array_labels y = Return y' ∧
    fit_transform (scaler a0) X' = (Return X_scaled, s1) ∧
    rf_fit g (model a0) X_scaled y' = (Return tt, m1) ∧
    rf_score m1 X_scaled y' = (Return acc, m2) ∧
    final (fit g X y a0) = set_model m2 (set_scaler s1 a0) ∧
    ∀ imps, feature_importances_ m2 = Some imps →
      ∃ pre vals,
        Forall2 (λ i v, imps !! i = Some v) (top_indices imps) vals ∧
        output (fit g X y a0) =
          pre ++ FitTopHeader :: zip_with FitFeature (top_indices imps) vals.
Proof.
  unfold fit. intros H.
  apply bind_completes in H as (? & a1 & o1 & E1 & H & -> & ->).
  apply bind_completes in H as (X' & a2 & o2 & E2 & H & -> & ->).
  apply bind_completes in H as (y' & a3 & o3 & E3 & H & -> & ->).
  apply bind_completes in H as (? & a4 & o4 & E4 & H & -> & ->).
  apply bind_completes in H as (? & a5 & o5 & E5 & H & -> & ->).
  apply bind_completes in H as (? & a6 & o6 & E6 & H & -> & ->).
  apply bind_completes in H as (Xs & a7 & o7 & E7 & H & -> & ->).
  apply bind_completes in H as (n & a8 & o8 & E8 & H & -> & ->).
  apply bind_completes in H as (? & a9 & o9 & E9 & H & -> & ->).
  apply bind_completes in H as ([] & a10 & o10 & E10 & H & -> & ->).
  apply bind_completes in H as (acc & a11 & o11 & E11 & H & -> & ->).
  apply bind_completes in H as (? & a12 & o12 & E12 & H & -> & ->).
  apply bind_completes in H as (? & a13 & o13 & E13 & H & -> & ->).
  apply bind_completes in H as (nf & a14 & o14 & E14 & H & -> & ->).
  apply bind_completes in H as (? & a15 & o15 & E15 & H & -> & ->).
  apply bind_completes in H as (ns & a16 & o16 & E16 & H & -> & ->).
  apply bind_completes in H as (? & a17 & o17 & E17 & H & -> & ->).
  apply bind_completes in H as (m & a18 & o18 & E18 & H & -> & ->).
  unfold index in E14, E16.
  destruct (shape X' !! 1); [|by unfold lift in E14].
  destruct (shape X' !! 0); [|by unfold lift in E16].
  unfold print, lift, gets, ret in *.
  injection E1 as _ <- _. injection E2 as HX <- _. injection E3 as Hy <- _.
  injection E4 as _ <- _. injection E5 as _ <- _. injection E6 as _ <- _.
  unfold call_scaler in E7.
  destruct (fit_transform (scaler a0) X') as [r1 s1] eqn:Hs.
  injection E7 as -> <- _.
  injection E8 as _ <- _. injection E9 as _ <- _.
  unfold call_model in E10. simpl in E10.
  destruct (rf_fit g (model a0) Xs y') as [r2 m1] eqn:Hm.
  injection E10 as -> <- _.
  unfold call_model in E11. simpl in E11.
  destruct (rf_score m1 Xs y') as [r3 m2] eqn:Hacc.
  injection E11 as -> <- _.
  injection E12 as _ <- _. injection E13 as _ <- _. injection E14 as _ <- _.
  injection E15 as _ <- _. injection E16 as _ <- _. injection E17 as _ <- _.
  injection E18 as <- <- _. simpl in *.
  exists X', y', Xs, s1, m1, acc, m2.
  repeat (split; [done|]).
  destruct (feature_importances_ m2) as [imps|] eqn:Himp.
  - pose proof (report_importances_run imps
      (set_model m2 (set_model m1 (set_scaler s1 a0)))) as Hrep.
    unfold result, final, output in *.
    destruct (report_importances imps _) as [[[[]|e] a'] out]; simpl in *; [|done].
    destruct Hrep as [-> (vals & Hvals & ->)].
    split; [done|]. intros ? [= <-]. eexists _, vals. split; [done|].
    rewrite !app_assoc. reflexivity.
  - split; [done|]. intros ? [=].
Qed.
End FitRuns.

(** * Properties of the wrapper *)

Section Claims.
Context {L : Sklearn}.

(** ** Unconditional facts: the wrapper's own code *)

Lemma predict_hyperparameters X a :
  let a' := final (predict X a) in
  n_estimators a' = n_estimators a ∧ max_depth a' = max_depth a ∧
  min_samples_split a' = min_samples_split a ∧ random_state a' = random_state a.
Proof.
  unfold final. rewrite predict_run.
  destruct (np_array X) as [X'|e]; [|done].
  destruct (transform (scaler a) X') as [[Xs|e] s]; [|done].
  by destruct (rf_predict (model a) Xs) as [[p|e] m].
Qed.

Lemma predict_proba_hyperparameters X a :
  let a' := final (predict_proba X a) in
  n_estimators a' = n_estimators a ∧ max_depth a' = max_depth a ∧
  min_samples_split a' = min_samples_split a ∧ random_state a' = random_state a.
Proof.
  unfold final. rewrite predict_proba_run.
  destruct (np_array X) as [X'|e]; [|done].
  destruct (transform (scaler a) X') as [[Xs|e] s]; [|done].
  by destruct (rf_predict_proba (model a) Xs) as [r m].
Qed.

(** C6.  [__init__] takes each of the four options from the dictionary when
    the key is present, whatever the value, and otherwise uses 100, None, 2
    and 42; the scaler is a fresh [StandardScaler], the model a
    [RandomForestClassifier] built from the four resolved values and
    [n_jobs=-1]. *)
Theorem init_resolves_defaults (params : gmap string pyval) :
  let a := (init params).1 in
  ((params !! "n_estimators"%string = None → n_estimators a = PyInt 100) ∧
   (params !! "max_depth"%string = None → max_depth a = PyNone) ∧
   (params !! "min_samples_split"%string = None → min_samples_split a = PyInt 2) ∧
   (params !! "random_state"%string = None → random_state a = PyInt 42)) ∧
  ((∀ v, params !! "n_estimators"%string = Some v → n_estimators a = v) ∧
   (∀ v, params !! "max_depth"%string = Some v → max_depth a = v) ∧
   (∀ v, params !! "min_samples_split"%string = Some v → min_samples_split a = v) ∧
   (∀ v, params !! "random_state"%string = Some v → random_state a = v)) ∧
  scaler a = StandardScaler ∧
  model a = RandomForestClassifier (n_estimators a) (max_depth a)
              (min_samples_split a) (random_state a) (-1) ∧
  (init params).2 = [InitBanner; InitNEstimators (n_estimators a);
                     InitMaxDepth (max_depth a);
                     InitMinSamplesSplit (min_samples_split a);
                     InitRandomState (random_state a)].
Proof.
  simpl. repeat split; try (by intros ->); by intros v ->.
Qed.

(** ** Facts that rest on the library leaving its receiver alone *)

Section ReadOnly.
Hypothesis transform_pure : ∀ s X, (transform s X).2 = s.

Lemma predict_scaler X a : scaler (final (predict X a)) = scaler a.
Proof.
  unfold final. rewrite predict_run.
  destruct (np_array X) as [X'|e]; [|done].
  pose proof (transform_pure (scaler a) X') as Hs.
  destruct (transform (scaler a) X') as [[Xs|e] s]; simpl in Hs; subst; [|done].
  by destruct (rf_predict (model a) Xs) as [[p|e] m].
Qed.

Lemma predict_proba_scaler X a : scaler (final (predict_proba X a)) = scaler a.
Proof.
  unfold final. rewrite predict_proba_run.
  destruct (np_array X) as [X'|e]; [|done].
  pose proof (transform_pure (scaler a) X') as Hs.
  destruct (transform (scaler a) X') as [[Xs|e] s]; simpl in Hs; subst; [|done].
  by destruct (rf_predict_proba (model a) Xs) as [r m].
Qed.

Hypothesis rf_predict_pure : ∀ m Z, (rf_predict m Z).2 = m.

Lemma predict_final X a : final (predict X a) = a.
Proof.
  unfold final. rewrite predict_run.
  destruct (np_array X) as [X'|e]; [|done].
  pose proof (transform_pure (scaler a) X') as Hs.
  destruct (transform (scaler a) X') as [[Xs|e] s]; simpl in Hs; subst;
    [|apply set_scaler_id].
  pose proof (rf_predict_pure (model a) Xs) as Hm.
  destruct (rf_predict (model a) Xs) as [[p|e] m]; simpl in Hm; subst; simpl;
    by rewrite set_scaler_id, set_model_id.
Qed.

Hypothesis rf_predict_proba_pure : ∀ m Z, (rf_predict_proba m Z).2 = m.

Lemma predict_proba_final X a : final (predict_proba X a) = a.
Proof.
  unfold final. rewrite predict_proba_run.
  destruct (np_array X) as [X'|e]; [|done].
  pose proof (transform_pure (scaler a) X') as Hs.
  destruct (transform (scaler a) X') as [[Xs|e] s]; simpl in Hs; subst;
    [|apply set_scaler_id].
  pose proof (rf_predict_proba_pure (model a) Xs) as Hm.
  destruct (rf_predict_proba (model a) Xs) as [r m]; simpl in Hm; subst; simpl.
  by rewrite set_scaler_id, set_model_id.
Qed.

(** C3.  When the library's [transform] and [predict] leave their receivers
    as they found them, a call of [predict] leaves [self] as it found it, so
    a second call on the same input is the same run: same result (labels or
    exception) and same printed lines. *)
Theorem predict_twice_same X a :
  let first := predict X a in
  let second := predict X (final first) in
  result second = result first ∧ output second = output first ∧
  final second = final first.
Proof.
  cbv zeta. by rewrite !predict_final.
Qed.

(** C10.  Under the same reading of the library, [predict] and
    [predict_proba] return [self] with all six attributes as they were: the
    four hyperparameters, the scaler with its learned statistics and the
    trained model. *)
Theorem predict_frame X a :
  final (predict X a) = a ∧ final (predict_proba X a) = a.
Proof.
  split; [apply predict_final | apply predict_proba_final].
Qed.

End ReadOnly.
End Claims.

(** ** Before any [fit] *)

Section BeforeFit.
Context {L : Sklearn}.

(** The library's contract used here: a fresh [StandardScaler] is not
    fitted; [transform] on a scaler that is not fitted raises
    ([NotFittedError]); [transform] does not modify the scaler. *)
Hypothesis StandardScaler_unfitted : scaler_fitted StandardScaler = false.
Hypothesis transform_check_is_fitted :
  ∀ s X, scaler_fitted s = false → is_raise (transform s X).1 = true.
Hypothesis transform_pure : ∀ s X, (transform s X).2 = s.

Lemma never_fitted_scaler a : never_fitted a → scaler_fitted (scaler a) = false.
Proof.
  induction 1 as [params|a X _ IH|a X _ IH]; simpl.
  - apply StandardScaler_unfitted.
  - by rewrite predict_scaler.
  - by rewrite predict_proba_scaler.
Qed.

(** C5.  On a wrapper that has never been fitted, [predict] and
    [predict_proba] both end in an exception: no value is returned. *)
Theorem predict_before_fit_raises a X :
  never_fitted a →
  is_raise (result (predict X a)) = true ∧
  is_raise (result (predict_proba X a)) = true.
Proof.
  intros Hnf. apply never_fitted_scaler in Hnf.
  unfold result. rewrite predict_run, predict_proba_run.
  destruct (np_array X) as [X'|e]; [|done].
  pose proof (transform_check_is_fitted _ X' Hnf) as Hr.
  by destruct (transform (scaler a) X') as [[Xs|e] s].
Qed.

End BeforeFit.

(** ** After a completed [fit] *)

Section AfterFit.
Context {L : Sklearn}.

(** The library's contract used here.  [np.array] returns a valid 2-D
    numeric array as it is.  A completed [fit_transform] leaves the scaler
    fitted on the columns of its input and returns the input standardized
    row by row with the statistics it has just learned; [transform] on a
    fitted scaler standardizes, row by row, any valid array with as many
    columns, and modifies nothing.  A completed forest [fit] leaves the forest
    fitted on the columns of its input; [score] modifies nothing; [predict]
    on a fitted forest labels, row by row, any valid array with as many
    columns. *)
Hypothesis np_array_ndarray : ∀ X, check_array X = true → np_array X = Return X.
Hypothesis fit_transform_learns : ∀ s X X_scaled s',
  fit_transform s X = (Return X_scaled, s') →
  scaler_fitted s' = true ∧ scaler_n_features_in_ s' = ncols X ∧
  X_scaled = scale_row s' <$> X.
Hypothesis scale_row_length : ∀ s r,
  scaler_fitted s = true → length r = scaler_n_features_in_ s →
  length (scale_row s r) = length r.
Hypothesis transform_pure : ∀ s X, (transform s X).2 = s.
Hypothesis transform_rows : ∀ s X,
  scaler_fitted s = true → check_array X = true →
  ncols X = scaler_n_features_in_ s →
  (transform s X).1 = Return (scale_row s <$> X).
Hypothesis rf_fit_trains : ∀ g m Z y m',
  rf_fit g m Z y = (Return tt, m') →
  forest_fitted m' = true ∧ n_features_in_ m' = ncols Z.
Hypothesis rf_score_pure : ∀ m Z y, (rf_score m Z y).2 = m.
Hypothesis rf_predict_rows : ∀ m Z,
  forest_fitted m = true → check_array Z = true → ncols Z = n_features_in_ m →
  (rf_predict m Z).1 = Return (predict_row m <$> Z).

Lemma ncols_scaled s X :
  scaler_fitted s = true → ncols X = scaler_n_features_in_ s →
  ncols (scale_row s <$> X) = ncols X.
Proof.
  intros Hs Hn. destruct X as [|r X]; [done|]. unfold ncols in *; simpl in *.
  by apply scale_row_length.
Qed.

(** The state a completed [fit] leaves behind. *)
Lemma fit_fitted g X y a0 :
  result (fit g X y a0) = Return tt →
  ∃ X' X_scaled,
    np_array X = Return X' ∧
    fit_transform (scaler a0) X' = (Return X_scaled, scaler (final (fit g X y a0))) ∧
    scaler_fitted (scaler (final (fit g X y a0))) = true ∧
    scaler_n_features_in_ (scaler (final (fit g X y a0))) = ncols X' ∧
    forest_fitted (model (final (fit g X y a0))) = true ∧
    n_features_in_ (model (final (fit g X y a0))) = ncols X'.
Proof.
  intros H.
  destruct (fit_success _ _ _ _ H)
    as (X' & y' & Xs & s1 & m1 & acc & m2 & HX & Hy & Hs & Hm & Hacc & -> & _).
  pose proof (rf_score_pure m1 Xs y') as Hpure. rewrite Hacc in Hpure.
  simpl in Hpure. subst m2.
  destruct (fit_transform_learns _ _ _ _ Hs) as (Hfit & Hn & ->).
  destruct (rf_fit_trains _ _ _ _ _ Hm) as (Hmfit & Hmn).
  exists X', (scale_row s1 <$> X'). simpl. repeat split; try done.
  by rewrite Hmn, ncols_scaled.
Qed.

(** C1.  After a completed [fit], [predict] on a valid matrix with the
    training column count (whose standardized rows the forest accepts)
    returns a label vector as long as the input, and the label at each
    position is the forest's label for the standardized row at that
    position. *)
Theorem predict_one_label_per_row g a0 Xtr ytr Xtr' X :
  let a := final (fit g Xtr ytr a0) in
  result (fit g Xtr ytr a0) = Return tt →
  np_array Xtr = Return Xtr' →
  check_array X = true →
  check_array (scale_row (scaler a) <$> X) = true →
  ncols X = ncols Xtr' →
  ∃ labels,
    result (predict X a) = Return labels ∧
    length labels = length X ∧
    ∀ i row, X !! i = Some row →
      labels !! i = Some (predict_row (model a) (scale_row (scaler a) row)).
Proof.
  intros a Hfit HXtr HX HXs Hcols.
  destruct (fit_fitted _ _ _ _ Hfit) as (X0 & Xs & HX0 & _ & Hsf & Hsn & Hmf & Hmn).
  fold a in Hsf, Hsn, Hmf, Hmn.
  assert (X0 = Xtr') as -> by congruence.
  exists (predict_row (model a) <$> (scale_row (scaler a) <$> X)).
  split; [|split].
  - unfold result. rewrite predict_run, (np_array_ndarray _ HX).
    pose proof (transform_rows (scaler a) X Hsf HX ltac:(congruence)) as Ht.
    destruct (transform (scaler a) X) as [r s]; simpl in Ht; subst r.
    assert (ncols (scale_row (scaler a) <$> X) = n_features_in_ (model a)) as Hc.
    { rewrite ncols_scaled; congruence. }
    pose proof (rf_predict_rows (model a) _ Hmf HXs Hc) as Hp.
    by destruct (rf_predict (model a) _) as [r m]; simpl in Hp; subst r.
  - by rewrite !length_fmap.
  - intros i row Hi. by rewrite !list_lookup_fmap, Hi.
Qed.

(** C7.  The scaler a completed [fit] leaves in [self] is the one the
    library's [fit_transform] produced from the training matrix.  [predict]
    hands the forest what [transform] makes of its input with that scaler,
    and leaves the scaler as it is; on a valid matrix with the training
    column count, that is each input row standardized with the training-time
    scaler. *)
Theorem predict_uses_training_statistics g a0 Xtr ytr :
  let a := final (fit g Xtr ytr a0) in
  result (fit g Xtr ytr a0) = Return tt →
  ∃ Xtr' Xtr_scaled,
    np_array Xtr = Return Xtr' ∧
    fit_transform (scaler a0) Xtr' = (Return Xtr_scaled, scaler a) ∧
    ∀ X X', np_array X = Return X' →
      scaler (final (predict X a)) = scaler a ∧
      result (predict X a) =
        match (transform (scaler a) X').1 with
        | Return X_scaled => (rf_predict (model a) X_scaled).1
        | Raise e => Raise e
        end ∧
      (check_array X' = true → ncols X' = ncols Xtr' →
       result (predict X a) =
         (rf_predict (model a) (scale_row (scaler a) <$> X')).1).
Proof.
  intros a Hfit.
  destruct (fit_success _ _ _ _ Hfit)
    as (Xtr' & y' & Xs & s1 & m1 & acc & m2 & HX0 & _ & Hft & _ & _ & Hfin & _).
  destruct (fit_transform_learns _ _ _ _ Hft) as (Hsf & Hsn & _).
  assert (scaler a = s1) as Hsa by (unfold a; by rewrite Hfin).
  rewrite <-Hsa in Hft, Hsf, Hsn.
  exists Xtr', Xs. split; [done|]. split; [done|].
  intros X X' HX.
  assert (result (predict X a) =
          match (transform (scaler a) X').1 with
          | Return X_scaled => (rf_predict (model a) X_scaled).1
          | Raise e => Raise e
          end) as Hres.
  { unfold result. rewrite predict_run, HX.
    destruct (transform (scaler a) X') as [[Z|e] s]; [|done]. simpl.
    by destruct (rf_predict (model a) Z) as [[p|e] m]. }
  split; [by apply predict_scaler|]. split; [done|].
  intros Hc Hn. rewrite Hres, transform_rows; [done..|congruence].
Qed.

End AfterFit.

(** ** The life cycle of the fitted state *)

Section Lifecycle.
Context {L : Sklearn}.

(** The library's contract used here: fresh objects are not fitted, a
    completed [fit_transform] or forest [fit] leaves its receiver fitted, and
    [score], [transform], [predict] and [predict_proba] modify nothing. *)
Hypothesis StandardScaler_unfitted : scaler_fitted StandardScaler = false.
Hypothesis RandomForestClassifier_unfitted : ∀ ne md mss rs nj,
  forest_fitted (RandomForestClassifier ne md mss rs nj) = false.
Hypothesis fit_transform_fits : ∀ s X X_scaled s',
  fit_transform s X = (Return X_scaled, s') → scaler_fitted s' = true.
Hypothesis rf_fit_fits : ∀ g m Z y m',
  rf_fit g m Z y = (Return tt, m') → forest_fitted m' = true.
Hypothesis rf_score_pure : ∀ m Z y, (rf_score m Z y).2 = m.
Hypothesis transform_pure : ∀ s X, (transform s X).2 = s.
Hypothesis rf_predict_pure : ∀ m Z, (rf_predict m Z).2 = m.
Hypothesis rf_predict_proba_pure : ∀ m Z, (rf_predict_proba m Z).2 = m.

(** C8, as the code has it.  Construction leaves both library objects
    unfitted.  A completed [fit], on a wrapper in any state, leaves both
    fitted, and they are what the library's [fit_transform] and [fit] made of
    the objects the wrapper held before and of the data of this call: a
    second [fit] trains again in place.  [predict] and [predict_proba] keep a
    fitted wrapper fitted. *)
Theorem fit_lifecycle params g X y a Xq :
  (scaler_fitted (scaler (init params).1) = false ∧
   forest_fitted (model (init params).1) = false) ∧
  (result (fit g X y a) = Return tt →
   fitted (final (fit g X y a)) = true ∧
   ∃ X' y' X_scaled,
     np_array X = Return X' ∧ np_array_labels y = Return y' ∧
     fit_transform (scaler a) X' = (Return X_scaled, scaler (final (fit g X y a))) ∧
     rf_fit g (model a) X_scaled y' = (Return tt, model (final (fit g X y a)))) ∧
  (fitted a = true →
   fitted (final (predict Xq a)) = true ∧
   fitted (final (predict_proba Xq a)) = true).
Proof.
  split; [|split].
  - split; [apply StandardScaler_unfitted|apply RandomForestClassifier_unfitted].
  - intros H.
    destruct (fit_success _ _ _ _ H)
      as (X' & y' & Xs & s1 & m1 & acc & m2 & HX & Hy & Hs & Hm & Hacc & -> & _).
    pose proof (rf_score_pure m1 Xs y') as Hpure. rewrite Hacc in Hpure.
    simpl in Hpure. subst m2. split.
    + unfold fitted. simpl.
      by rewrite (fit_transform_fits _ _ _ _ Hs), (rf_fit_fits _ _ _ _ _ Hm).
    + by exists X', y', Xs.
  - intros Ha. by rewrite predict_final, predict_proba_final.
Qed.

End Lifecycle.

(** ** Seeds *)

Section Seeds.
Context {L : Sklearn}.

(** The library's contract used here: a forest constructed with an integer
    [random_state] draws all its randomness from that seed, so that what
    [fit] does is the same whatever the ambient generator holds (also with
    [n_jobs=-1]). *)
Hypothesis rf_fit_seeded : ∀ ne md mss z nj g1 g2 Z y,
  rf_fit g1 (RandomForestClassifier ne md mss (PyInt z) nj) Z y =
  rf_fit g2 (RandomForestClassifier ne md mss (PyInt z) nj) Z y.

Lemma fit_entropy g1 g2 X y a :
  (∀ Z y', rf_fit g1 (model a) Z y' = rf_fit g2 (model a) Z y') →
  fit g1 X y a = fit g2 X y a.
Proof.
  intros H. unfold fit, bind, print, lift, gets, call_scaler, call_model; simpl.
  destruct (np_array X) as [X'|e]; simpl; [|done].
  destruct (np_array_labels y) as [y'|e]; simpl; [|done].
  destruct (fit_transform (scaler a) X') as [[Xs|e] s]; simpl; [|done].
  by rewrite H.
Qed.

(** C2.  Two wrappers built from dictionaries that agree on the four
    recognized options, with an integer [random_state], and fitted on the
    same data, answer [predict] and [predict_proba] on the same input with the
    same result, whatever the ambient random generator held at each [fit]. *)
Theorem same_seed_same_predictions (p1 p2 : gmap string pyval) g1 g2 z X y X' :
  p1 !! "n_estimators"%string = p2 !! "n_estimators"%string →
  p1 !! "max_depth"%string = p2 !! "max_depth"%string →
  p1 !! "min_samples_split"%string = p2 !! "min_samples_split"%string →
  p1 !! "random_state"%string = p2 !! "random_state"%string →
  random_state (init p1).1 = PyInt z →
  let a1 := final (fit g1 X y (init p1).1) in
  let a2 := final (fit g2 X y (init p2).1) in
  result (predict X' a1) = result (predict X' a2) ∧
  result (predict_proba X' a1) = result (predict_proba X' a2).
Proof.
  intros H1 H2 H3 H4 Hz a1 a2.
  assert ((init p2).1 = (init p1).1) as Hinit.
  { unfold init; simpl. by rewrite H1, H2, H3, H4. }
  assert (a1 = a2) as ->; [|done].
  unfold a1, a2. rewrite Hinit. f_equal. apply fit_entropy.
  intros Z y'. simpl in *. rewrite Hz. apply rf_fit_seeded.
Qed.

End Seeds.

(** ** The report of feature importances *)

Section Report.
Context {L : Sklearn}.

Lemma StronglySorted_lookup_lt {A} (R : relation A) l i j x y :
  StronglySorted R l → i < j → l !! i = Some x → l !! j = Some y → R x y.
Proof.
  intros Hl. revert i j. induction Hl as [|z l Hl IH Hz]; intros i j Hij Hi Hj.
  - done.
  - destruct j as [|j]; [lia|]. simpl in Hj. destruct i as [|i]; simpl in Hi.
    + simplify_eq. rewrite Forall_forall in Hz. apply Hz.
      by eapply list_elem_of_lookup_2.
    + apply (IH i j); [lia|done..].
Qed.

Lemma StronglySorted_reverse {A} (R : relation A) l :
  StronglySorted R l → StronglySorted (flip R) (reverse l).
Proof.
  induction 1 as [|x l Hl IH Hx]; [constructor|].
  rewrite reverse_cons. apply StronglySorted_app_2; [|done|repeat constructor].
  intros x1 x2 Hx1 Hx2%list_elem_of_singleton. subst x2.
  rewrite elem_of_reverse in Hx1. rewrite Forall_forall in Hx. by apply Hx.
Qed.

(** C9.  When [fit] completes on a forest that exposes importances [imps],
    and [np.argsort] lists the positions of [imps] in ascending order of
    value, the output of [fit] ends with the header and one line per entry of
    [np.argsort(imps)[-5:][::-1]]: five positions (all of them when there
    are fewer than five features), without repetition, each with its own
    importance, in descending order of importance, and no position left out
    has a larger importance than one reported.  The order among equal
    importances is the one [np.argsort] gave. *)
Theorem fit_reports_top_five g X y a0 imps :
  result (fit g X y a0) = Return tt →
  feature_importances_ (model (final (fit g X y a0))) = Some imps →
  np_argsort imps ≡ₚ seq 0 (length imps) →
  StronglySorted (ascending_by imps) (np_argsort imps) →
  ∃ pre vals,
    output (fit g X y a0) =
      pre ++ FitTopHeader :: zip_with FitFeature (top_indices imps) vals ∧
    top_indices imps = reverse (lastn 5 (np_argsort imps)) ∧
    Forall2 (λ i v, imps !! i = Some v) (top_indices imps) vals ∧
    length vals = 5 `min` length imps ∧
    NoDup (top_indices imps) ∧
    (∀ i j vi vj, i < j → vals !! i = Some vi → vals !! j = Some vj →
                  num_le vj vi) ∧
    (∀ k v w, imps !! k = Some v → k ∉ top_indices imps → w ∈ vals →
              num_le v w).
Proof.
  intros Hfit Himp Hperm Hsort.
  destruct (fit_success _ _ _ _ Hfit)
    as (X' & y' & Xs & s1 & m1 & acc & m2 & _ & _ & _ & _ & _ & Hfin & Hout).
  rewrite Hfin in Himp. simpl in Himp.
  destruct (Hout _ Himp) as (pre & vals & Hvals & ->).
  exists pre, vals. split; [done|]. split; [done|]. split; [done|].
  set (p := np_argsort imps) in *.
  assert (length p = length imps) as Hlen by by rewrite Hperm, length_seq.
  assert (p = take (length p - 5) p ++ lastn 5 p) as Hsplit
    by (unfold lastn; by rewrite take_drop).
  assert (NoDup p) as Hnd by (rewrite Hperm; apply NoDup_seq).
  rewrite Hsplit in Hsort, Hnd.
  apply StronglySorted_app in Hsort as (Hcross & _ & Hlast).
  apply NoDup_app in Hnd as (_ & Hdisj & Hndlast).
  assert (top_indices imps = reverse (lastn 5 p)) as Htop by done.
  split; [|split; [|split]].
  - rewrite <-(Forall2_length _ _ _ Hvals), Htop, length_reverse.
    unfold lastn. rewrite length_drop. lia.
  - by rewrite Htop, reverse_Permutation.
  - intros i j vi vj Hij Hi Hj.
    destruct (Forall2_lookup_r _ _ _ _ _ Hvals Hi) as (a & Ha & Hva).
    destruct (Forall2_lookup_r _ _ _ _ _ Hvals Hj) as (b & Hb & Hvb).
    rewrite Htop in Ha, Hb.
    pose proof (StronglySorted_lookup_lt _ _ _ _ _ _
                  (StronglySorted_reverse _ _ Hlast) Hij Ha Hb) as Hab.
    by apply Hab.
  - intros k v w Hk Hnot Hw.
    apply list_elem_of_lookup_1 in Hw as (i & Hi).
    destruct (Forall2_lookup_r _ _ _ _ _ Hvals Hi) as (b & Hb & Hvb).
    apply list_elem_of_lookup_2 in Hb. rewrite Htop, elem_of_reverse in Hb.
    assert (k ∈ p) as Hkp.
    { rewrite Hperm, elem_of_seq. apply lookup_lt_Some in Hk. lia. }
    rewrite Hsplit, elem_of_app in Hkp. destruct Hkp as [Hkt|Hkl].
    + by apply (Hcross k b Hkt Hb).
    + exfalso. apply Hnot. by rewrite Htop, elem_of_reverse.
Qed.

End Report.

(** ** The shape of the probability matrix *)

Section Probabilities.
Context {L : Sklearn}.

(** The library's contract used here: a completed forest [fit] leaves the
    forest fitted with [classes_] the distinct labels it was given, as
    [np.unique] lists them; [score] modifies nothing; every row that
    [predict_proba] returns on a fitted forest has one entry per class. *)
Hypothesis rf_fit_classes : ∀ g m Z y m',
  rf_fit g m Z y = (Return tt, m') →
  forest_fitted m' = true ∧ classes_ m' = np_unique y.
Hypothesis rf_score_pure : ∀ m Z y, (rf_score m Z y).2 = m.
Hypothesis rf_predict_proba_width : ∀ m Z P,
  forest_fitted m = true → (rf_predict_proba m Z).1 = Return P →
  Forall (λ row, length row = length (classes_ m)) P.

(** [predict_proba] returns the library's matrix as it is: after a completed
    [fit] on labels [y], each of its rows has as many entries as [y] has
    distinct labels.  (What the entries of a row sum to is a floating-point
    quantity computed inside the library.) *)
Lemma predict_proba_one_entry_per_class g a0 Xtr ytr ytr' X P :
  let a := final (fit g Xtr ytr a0) in
  result (fit g Xtr ytr a0) = Return tt →
  np_array_labels ytr = Return ytr' →
  result (predict_proba X a) = Return P →
  Forall (λ row, length row = length (np_unique ytr')) P.
Proof.
  intros a Hfit Hy HP.
  destruct (fit_success _ _ _ _ Hfit)
    as (X' & y' & Xs & s1 & m1 & acc & m2 & _ & Hy' & _ & Hm & Hacc & Hfin & _).
  assert (y' = ytr') as -> by congruence.
  pose proof (rf_score_pure m1 Xs ytr') as Hpure. rewrite Hacc in Hpure.
  simpl in Hpure. subst m2.
  destruct (rf_fit_classes _ _ _ _ _ Hm) as (Hmf & Hcl).
  assert (model a = m1) as Hma by (unfold a; by rewrite Hfin).
  unfold result in HP. rewrite predict_proba_run in HP.
  destruct (np_array X) as [Xq|e]; [|done].
  destruct (transform (scaler a) Xq) as [[Z|e] s]; [|done].
  rewrite Hma in HP. rewrite <-Hcl.
  apply (rf_predict_proba_width m1 Z P Hmf).
  by destruct (rf_predict_proba m1 Z) as [r m].
Qed.

End Probabilities.

(** ** The rows of the probability matrix *)

Section RowSums.
Context {L : Sklearn}.

(** The library's arithmetic on probabilities: the sum of a row, the
    closeness test with its tolerance, and the number one. *)
Variable row_sum : list num → num.
Variable isclose : num → num → Prop.
Variable one : num.

(** The library's contract used here.  [np.unique] lists the distinct
    values of its argument, each once.  A completed forest [fit] leaves the
    forest fitted on the columns of its input, with [classes_] the distinct
    labels it was given, and such that every row [predict_proba] then returns
    sums to one; every row [predict_proba] returns on a fitted forest has one
    entry per class, and on a valid array with the training column count it
    returns one row per input row.  The scaler behaves as stated for
    [predict]. *)
Hypothesis np_unique_distinct : ∀ y,
  NoDup (np_unique y) ∧ ∀ c, c ∈ np_unique y ↔ c ∈ y.
Hypothesis rf_fit_classes : ∀ g m Z y m',
  rf_fit g m Z y = (Return tt, m') →
  forest_fitted m' = true ∧ classes_ m' = np_unique y.
Hypothesis rf_score_pure : ∀ m Z y, (rf_score m Z y).2 = m.
Hypothesis rf_predict_proba_width : ∀ m Z P,
  forest_fitted m = true → (rf_predict_proba m Z).1 = Return P →
  Forall (λ row, length row = length (classes_ m)) P.
Hypothesis rf_fit_normalizes : ∀ g m Z y m',
  rf_fit g m Z y = (Return tt, m') →
  ∀ Z' P, (rf_predict_proba m' Z').1 = Return P →
          Forall (sums_to_one row_sum isclose one) P.
Hypothesis np_array_ndarray : ∀ X, check_array X = true → np_array X = Return X.
Hypothesis fit_transform_learns : ∀ s X X_scaled s',
  fit_transform s X = (Return X_scaled, s') →
  scaler_fitted s' = true ∧ scaler_n_features_in_ s' = ncols X ∧
  X_scaled = scale_row s' <$> X.
Hypothesis scale_row_length : ∀ s r,
  scaler_fitted s = true → length r = scaler_n_features_in_ s →
  length (scale_row s r) = length r.
Hypothesis transform_rows : ∀ s X,
  scaler_fitted s = true → check_array X = true →
  ncols X = scaler_n_features_in_ s →
  (transform s X).1 = Return (scale_row s <$> X).
Hypothesis rf_fit_trains : ∀ g m Z y m',
  rf_fit g m Z y = (Return tt, m') →
  forest_fitted m' = true ∧ n_features_in_ m' = ncols Z.
Hypothesis rf_predict_proba_rows : ∀ m Z,
  forest_fitted m = true → check_array Z = true → ncols Z = n_features_in_ m →
  ∃ P, (rf_predict_proba m Z).1 = Return P ∧ length P = length Z.

(** The rows [predict_proba] returns after a completed [fit] sum to one. *)
Lemma predict_proba_normalized g a0 Xtr ytr X P :
  result (fit g Xtr ytr a0) = Return tt →
  result (predict_proba X (final (fit g Xtr ytr a0))) = Return P →
  Forall (sums_to_one row_sum isclose one) P.
Proof.
  intros Hfit HP.
  destruct (fit_success _ _ _ _ Hfit)
    as (X' & y' & Xs & s1 & m1 & acc & m2 & _ & _ & _ & Hm & Hacc & Hfin & _).
  pose proof (rf_score_pure m1 Xs y') as Hpure. rewrite Hacc in Hpure.
  simpl in Hpure. subst m2.
  unfold result in HP. rewrite predict_proba_run, Hfin in HP. simpl in HP.
  destruct (np_array X) as [Xq|e]; [|done].
  destruct (transform s1 Xq) as [[Z|e] s]; [|done].
  apply (rf_fit_normalizes _ _ _ _ _ Hm Z P).
  by destruct (rf_predict_proba m1 Z) as [r m].
Qed.

(** C4.  After a completed [fit] on labels [y], there is a list of the
    distinct labels of [y], each once, such that every row of any matrix
    [predict_proba] returns sums to one (in the library's arithmetic and
    within its tolerance) and has one entry per label of that list; and on a
    valid matrix with the training column count (whose standardized rows the
    forest accepts) [predict_proba] does return a matrix, with one row per
    input row. *)
Theorem predict_proba_rows g a0 Xtr ytr Xtr' ytr' X :
  let a := final (fit g Xtr ytr a0) in
  result (fit g Xtr ytr a0) = Return tt →
  np_array Xtr = Return Xtr' →
  np_array_labels ytr = Return ytr' →
  ∃ classes,
    NoDup classes ∧ (∀ c, c ∈ classes ↔ c ∈ ytr') ∧
    (∀ P, result (predict_proba X a) = Return P →
          Forall (λ row, sums_to_one row_sum isclose one row ∧
                         length row = length classes) P) ∧
    (check_array X = true →
     check_array (scale_row (scaler a) <$> X) = true →
     ncols X = ncols Xtr' →
     ∃ P, result (predict_proba X a) = Return P ∧ length P = length X).
Proof.
  intros a Hfit HXtr Hytr.
  destruct (np_unique_distinct ytr') as [Hnd Hel].
  exists (np_unique ytr'). split; [done|]. split; [done|]. split.
  - intros P HP. apply Forall_and. split.
    + by eapply predict_proba_normalized.
    + by eapply (predict_proba_one_entry_per_class
                   rf_fit_classes rf_score_pure rf_predict_proba_width).
  - intros HX HXs Hcols.
    destruct (fit_fitted fit_transform_learns scale_row_length rf_fit_trains
                rf_score_pure _ _ _ _ Hfit)
      as (X0 & Xs & HX0 & _ & Hsf & Hsn & Hmf & Hmn).
    fold a in Hsf, Hsn, Hmf, Hmn.
    assert (X0 = Xtr') as -> by congruence.
    assert (ncols (scale_row (scaler a) <$> X) = n_features_in_ (model a)) as Hc.
    { rewrite (ncols_scaled scale_row_length); congruence. }
    destruct (rf_predict_proba_rows (model a) _ Hmf HXs Hc) as (P & HP & Hlen).
    exists P. split; [|by rewrite Hlen, length_fmap].
    unfold result. rewrite predict_proba_run, (np_array_ndarray _ HX).
    pose proof (transform_rows (scaler a) X Hsf HX ltac:(congruence)) as Ht.
    destruct (transform (scaler a) X) as [r s]; simpl in Ht; subst r.
    by destruct (rf_predict_proba (model a) _) as [r m].
Qed.

End RowSums.

(** * Further properties of the methods *)

Section Hyperparameters.
Context {L : Sklearn}.

Lemma same_hyperparameters_refl a : same_hyperparameters a a.
Proof. by repeat split. Qed.

Lemma same_hyperparameters_trans a1 a2 a3 :
  same_hyperparameters a1 a2 → same_hyperparameters a2 a3 →
  same_hyperparameters a1 a3.
Proof. unfold same_hyperparameters. intuition congruence. Qed.

Lemma keeps_ret {A} (x : A) : keeps_hyperparameters (ret x).
Proof. intros a. apply same_hyperparameters_refl. Qed.

Lemma keeps_print l : keeps_hyperparameters (print l).
Proof. intros a. apply same_hyperparameters_refl. Qed.

Lemma keeps_lift {A} (o : outcome exn A) : keeps_hyperparameters (lift o).
Proof. intros a. apply same_hyperparameters_refl. Qed.

Lemma keeps_gets {A} (f : Algorithm → A) : keeps_hyperparameters (gets f).
Proof. intros a. apply same_hyperparameters_refl. Qed.

Lemma keeps_call_scaler {A} (f : scaler_obj → outcome exn A * scaler_obj) :
  keeps_hyperparameters (call_scaler f).
Proof.
  intros a. unfold final, call_scaler. by destruct (f (scaler a)) as [r s].
Qed.

Lemma keeps_call_model {A} (f : forest_obj → outcome exn A * forest_obj) :
  keeps_hyperparameters (call_model f).
Proof.
  intros a. unfold final, call_model. by destruct (f (model a)) as [r m].
Qed.

Lemma keeps_bind {A B} (m : M A) (k : A → M B) :
  keeps_hyperparameters m → (∀ x, keeps_hyperparameters (k x)) →
  keeps_hyperparameters (bind m k).
Proof.
  intros Hm Hk a. specialize (Hm a). unfold final, bind in *.
  destruct (m a) as [[[x|e] a'] out]; simpl in *; [|done].
  specialize (Hk x a'). unfold final in Hk.
  destruct (k x a') as [[r a''] out']; simpl in *.
  by eapply same_hyperparameters_trans.
Qed.

Lemma keeps_index {A} (l : list A) i : keeps_hyperparameters (index l i).
Proof. unfold index. destruct (l !! i); [apply keeps_ret|apply keeps_lift]. Qed.

Lemma keeps_for_each {A} (l : list A) (body : A → M unit) :
  (∀ x, keeps_hyperparameters (body x)) → keeps_hyperparameters (for_each l body).
Proof.
  intros Hbody. induction l as [|x l IH]; simpl; [apply keeps_ret|].
  apply keeps_bind; [apply Hbody|]. by intros _.
Qed.

Create HintDb keeps discriminated.
#[local] Hint Resolve keeps_ret keeps_print keeps_lift keeps_gets
  keeps_call_scaler keeps_call_model keeps_index : keeps.

Lemma keeps_report_importances imps :
  keeps_hyperparameters (report_importances imps).
Proof.
  unfold report_importances. apply keeps_bind; [auto with keeps|]. intros _.
  apply keeps_for_each. intros idx. unfold feature_line.
  apply keeps_bind; [auto with keeps|]. intros v. auto with keeps.
Qed.

Lemma fit_keeps_hyperparameters g X y : keeps_hyperparameters (fit g X y).
Proof.
  unfold fit.
  repeat (apply keeps_bind; [auto with keeps|]; intros ?).
  destruct (feature_importances_ _);
    [apply keeps_report_importances|apply keeps_ret].
Qed.

(** X1.  Whatever calls a client makes on a wrapper, in whatever order and
    however each of them ends, the four hyperparameter attributes keep the
    values they had: only [__init__] ever assigns them.  Nothing is assumed
    of the library. *)
Theorem session_keeps_hyperparameters (cs : list call) (a : Algorithm) :
  n_estimators (session cs a) = n_estimators a ∧
  max_depth (session cs a) = max_depth a ∧
  min_samples_split (session cs a) = min_samples_split a ∧
  random_state (session cs a) = random_state a.
Proof.
  change (same_hyperparameters (session cs a) a).
  revert a. induction cs as [|c cs IH]; intros a; simpl.
  - apply same_hyperparameters_refl.
  - eapply same_hyperparameters_trans; [apply IH|].
    destruct c as [g X y|X|X]; simpl.
    + apply fit_keeps_hyperparameters.
    + apply predict_hyperparameters.
    + apply predict_proba_hyperparameters.
Qed.

End Hyperparameters.

Section FitPaths.
Context {L : Sklearn}.

Lemma for_each_feature_completes imps l a :
  Forall (λ i, i < length imps) l →
  ∃ vals, Forall2 (λ i v, imps !! i = Some v) l vals ∧
          for_each l (feature_line imps) a =
            (Return tt, a, zip_with FitFeature l vals).
Proof.
  induction 1 as [|i l Hi Hl (vals & Hvals & IH)].
  - exists []. split; [constructor|done].
  - destruct (lookup_lt_is_Some_2 imps i Hi) as [v Hv].
    exists (v :: vals). split; [by constructor|].
    simpl. unfold bind at 1, feature_line at 1, index, bind, ret, print.
    rewrite Hv. simpl. by rewrite IH.
Qed.

Lemma top_indices_in_range imps :
  Forall (λ i, i < length imps) (np_argsort imps) →
  Forall (λ i, i < length imps) (top_indices imps).
Proof.
  intros H. unfold top_indices, lastn.
  apply Forall_reverse. by apply Forall_drop.
Qed.

(** X2.  [fit] completes whenever the library does: if the two coercions,
    [fit_transform], the forest's [fit] and [score] all return, the training
    array is not empty, and [np.argsort] yields positions of the importance
    vector, then [fit] returns, leaves in [self] the scaler and the forest as
    those calls left them, and has printed, in this order: the start line,
    the shapes, the classes, the two progress lines, the completion line, the
    accuracy that [score] returned on the standardized training data itself,
    the number of columns and of rows, and the importance report. *)
Theorem fit_completes g X y a X' y' X_scaled s1 m1 acc m2 :
  np_array X = Return X' →
  np_array_labels y = Return y' →
  fit_transform (scaler a) X' = (Return X_scaled, s1) →
  rf_fit g (model a) X_scaled y' = (Return tt, m1) →
  rf_score m1 X_scaled y' = (Return acc, m2) →
  X' ≠ [] →
  (∀ imps, feature_importances_ m2 = Some imps →
           Forall (λ i, i < length imps) (np_argsort imps)) →
  ∃ report,
    fit g X y a =
      (Return tt, set_model m2 (set_scaler s1 a),
       [FitStart; FitShapes [length X'; ncols X'] [length y'];
        FitClasses (np_unique y'); FitStandardizing;
        FitTraining (n_estimators a); FitCompleted; FitAccuracy acc;
        FitNumFeatures (ncols X'); FitNumSamples (length X')] ++ report) ∧
    match feature_importances_ m2 with
    | Some imps =>
        ∃ vals, Forall2 (λ i v, imps !! i = Some v) (top_indices imps) vals ∧
                report = FitTopHeader :: zip_with FitFeature (top_indices imps) vals
    | None => report = []
    end.
Proof.
  intros HX Hy Hs Hm Hacc Hne Hrange.
  destruct X' as [|r rest]; [done|].
  unfold fit, bind, print, lift, gets, call_scaler, call_model; simpl.
  rewrite HX, Hy; simpl. rewrite Hs; simpl. rewrite Hm; simpl.
  rewrite Hacc; simpl.
  destruct (feature_importances_ m2) as [imps|] eqn:Himp.
  - destruct (for_each_feature_completes imps (top_indices imps)
                (set_model m2 (set_model m1 (set_scaler s1 a)))
                (top_indices_in_range _ (Hrange _ eq_refl)))
      as (vals & Hvals & Hrun).
    exists (FitTopHeader :: zip_with FitFeature (top_indices imps) vals).
    split; [|by exists vals].
    unfold report_importances, bind, print. by rewrite Hrun.
  - by exists [].
Qed.

(** X3.  When a coercion raises, [fit] raises the same exception having
    touched neither library object: [self] is as before the call, and only
    the start line has been printed. *)
Theorem fit_coercion_failure g X y a e :
  np_array X = Raise e ∨
  (∃ X', np_array X = Return X' ∧ np_array_labels y = Raise e) →
  fit g X y a = (Raise e, a, [FitStart]).
Proof.
  intros [HX|(X' & HX & Hy)];
    unfold fit, bind, print, lift; simpl; rewrite HX; simpl; [done|].
  by rewrite Hy.
Qed.


End FitPaths.

Section PredictPaths.
Context {L : Sklearn}.

(** X5.  What [predict] prints.  When it returns labels, it has printed
    four lines: the start line, the shape of the coerced input, the number of
    labels it returns, and the histogram of exactly those labels.  When it
    raises, it has printed the start line alone or with the shape line: the
    count and the histogram are never printed for a call that fails. *)
Theorem predict_output X a :
  (∀ labels, result (predict X a) = Return labels →
     ∃ X', np_array X = Return X' ∧
           output (predict X a) =
             [PredStart; PredShape (shape X'); PredGenerated (length labels);
              PredDistribution (np_unique_counts labels)]) ∧
  (∀ e, result (predict X a) = Raise e →
     output (predict X a) = [PredStart] ∨
     ∃ X', np_array X = Return X' ∧
           output (predict X a) = [PredStart; PredShape (shape X')]).
Proof.
  unfold result, output. rewrite predict_run.
  destruct (np_array X) as [X'|e0]; [|split; [done|by left]].
  destruct (transform (scaler a) X') as [[Z|e1] s];
    [|split; [done|right; by exists X']].
  destruct (rf_predict (model a) Z) as [[p|e2] m]; simpl.
  - split; [|done]. intros labels [= ->]. by exists X'.
  - split; [done|]. right. by exists X'.
Qed.

(** X6.  [predict_proba] prepares its input exactly as [predict] does and
    prints nothing.  Either both raise the same exception before the forest
    is reached, leaving the forest in [self] untouched, or there is one
    standardized matrix that [predict] hands to the forest's [predict] and
    [predict_proba] to the forest's [predict_proba]. *)
Theorem predict_proba_shares_preprocessing X a :
  output (predict_proba X a) = [] ∧
  ((∃ e, result (predict X a) = Raise e ∧
         result (predict_proba X a) = Raise e ∧
         model (final (predict X a)) = model a ∧
         model (final (predict_proba X a)) = model a) ∨
   (∃ X' X_scaled s,
      np_array X = Return X' ∧
      transform (scaler a) X' = (Return X_scaled, s) ∧
      result (predict X a) = (rf_predict (model a) X_scaled).1 ∧
      result (predict_proba X a) = (rf_predict_proba (model a) X_scaled).1)).
Proof.
  unfold result, output, final. rewrite predict_run, predict_proba_run.
  destruct (np_array X) as [X'|e0]; [|split; [done|left; by exists e0]].
  destruct (transform (scaler a) X') as [[Z|e1] s] eqn:Ht;
    [|split; [done|left; by exists e1]].
  split.
  - by destruct (rf_predict_proba (model a) Z) as [r m].
  - right. exists X', Z, s. repeat split; try done.
    + by destruct (rf_predict (model a) Z) as [[p|e2] m].
    + by destruct (rf_predict_proba (model a) Z) as [r m].
Qed.

End PredictPaths.

Section Construction.
Context {L : Sklearn}.

(** X7.  [__init__] reads four keys and no other: adding, or changing, any
    other entry of the dictionary changes neither the wrapper it builds nor
    the lines it prints. *)
Theorem init_ignores_other_keys (params : gmap string pyval) (k : string) (v : pyval) :
  k ≠ "n_estimators"%string → k ≠ "max_depth"%string →
  k ≠ "min_samples_split"%string → k ≠ "random_state"%string →
  init (<[k:=v]> params) = init params.
Proof.
  intros H1 H2 H3 H4. unfold init.
  by rewrite !lookup_insert_ne.
Qed.

(** X8.  The positions reported, [np.argsort(importances)[-5:][::-1]], are
    never more than five, are all taken from what [np.argsort] returned, and
    when [np.argsort] returned at most five positions they are all of them,
    last first.  Nothing is assumed of [np.argsort]. *)
Theorem top_indices_at_most_five (imps : list num) :
  length (top_indices imps) ≤ 5 ∧
  top_indices imps ⊆ np_argsort imps ∧
  (length (np_argsort imps) ≤ 5 → top_indices imps = reverse (np_argsort imps)).
Proof.
  unfold top_indices, lastn. split; [|split].
  - rewrite length_reverse, length_drop. lia.
  - intros i Hi. rewrite elem_of_reverse in Hi.
    by eapply subseteq_drop.
  - intros Hle. by replace (length (np_argsort imps) - 5) with 0 by lia.
Qed.

End Construction.

(** * The executable library meets the contracts *)

Module ToyFacts.
Import Toy.

Lemma np_array_ndarray X :
  @check_array toy X = true → @np_array toy X = Return X.
Proof. simpl. by intros ->. Qed.

Lemma StandardScaler_unfitted : @scaler_fitted toy StandardScaler = false.
Proof. done. Qed.

Lemma RandomForestClassifier_unfitted ne md mss rs nj :
  @forest_fitted toy (RandomForestClassifier ne md mss rs nj) = false.
Proof. done. Qed.

Lemma transform_check_is_fitted s X :
  @scaler_fitted toy s = false → is_raise (@transform toy s X).1 = true.
Proof. by destruct s. Qed.

Lemma transform_pure s X : (@transform toy s X).2 = s.
Proof.
  destruct s as [mu|]; simpl; [|done].
  by destruct (valid _ && _).
Qed.

Lemma fit_transform_learns s X X_scaled s' :
  @fit_transform toy s X = (Return X_scaled, s') →
  @scaler_fitted toy s' = true ∧ @scaler_n_features_in_ toy s' = ncols X ∧
  X_scaled = @scale_row toy s' <$> X.
Proof.
  simpl. unfold scaler_fit_transform. destruct (valid _); [|done].
  intros [= <- <-]. simpl. split; [done|]. split; [|done].
  unfold means. by rewrite length_fmap, length_seq.
Qed.

Lemma fit_transform_fits s X X_scaled s' :
  @fit_transform toy s X = (Return X_scaled, s') → @scaler_fitted toy s' = true.
Proof. intros H. by destruct (fit_transform_learns _ _ _ _ H). Qed.

Lemma center_length mu r : length (center mu r) = length r.
Proof. revert mu. induction r as [|x r IH]; intros mu; simpl; by rewrite ?IH. Qed.

Lemma scale_row_length s r :
  @scaler_fitted toy s = true → length r = @scaler_n_features_in_ toy s →
  length (@scale_row toy s r) = length r.
Proof. intros _ _. destruct s; [apply center_length|done]. Qed.

Lemma transform_rows s X :
  @scaler_fitted toy s = true → @check_array toy X = true →
  ncols X = @scaler_n_features_in_ toy s →
  (@transform toy s X).1 = Return (@scale_row toy s <$> X).
Proof.
  destruct s as [mu|]; [|done]. simpl. intros _ -> Hn.
  unfold ncols in Hn. unfold width. simpl in Hn. rewrite Hn.
  by rewrite Nat.eqb_refl.
Qed.

Lemma rf_fit_trains g m Z y m' :
  @rf_fit toy g m Z y = (Return tt, m') →
  @forest_fitted toy m' = true ∧ @n_features_in_ toy m' = ncols Z.
Proof.
  simpl. unfold forest_fit.
  destruct (valid _ && _); [|done]. by intros [= <-].
Qed.

Lemma rf_fit_fits g m Z y m' :
  @rf_fit toy g m Z y = (Return tt, m') → @forest_fitted toy m' = true.
Proof. intros H. by destruct (rf_fit_trains _ _ _ _ _ H). Qed.

Lemma rf_fit_seeded ne md mss z nj g1 g2 Z y :
  @rf_fit toy g1 (RandomForestClassifier ne md mss (PyInt z) nj) Z y =
  @rf_fit toy g2 (RandomForestClassifier ne md mss (PyInt z) nj) Z y.
Proof. done. Qed.

Lemma guarded_pure {A} m X (f : list Z → A) : (guarded m X f).2 = m.
Proof.
  unfold guarded. destruct (trained m) as [[w d]|]; [|done].
  by destruct (valid _ && _).
Qed.

Lemma guarded_rows {A} m X (f : list Z → A) :
  @forest_fitted toy m = true → valid X = true →
  width X = @n_features_in_ toy m →
  (guarded m X f).1 = Return (f <$> X).
Proof.
  simpl. unfold guarded. destruct (trained m) as [[w d]|]; [|done]. simpl.
  intros _ -> ->. by rewrite Nat.eqb_refl.
Qed.

Lemma rf_score_pure m Z y : (@rf_score toy m Z y).2 = m.
Proof.
  simpl. unfold forest_score. by destruct (guarded _ _ _) as [[p|e] m'].
Qed.

Lemma rf_predict_pure m Z : (@rf_predict toy m Z).2 = m.
Proof. apply guarded_pure. Qed.

Lemma rf_predict_proba_pure m Z : (@rf_predict_proba toy m Z).2 = m.
Proof. apply guarded_pure. Qed.

Lemma rf_predict_rows m Z :
  @forest_fitted toy m = true → @check_array toy Z = true →
  ncols Z = @n_features_in_ toy m →
  (@rf_predict toy m Z).1 = Return (@predict_row toy m <$> Z).
Proof. apply guarded_rows. Qed.

#[local] Instance le_at_transitive v : Transitive (le_at v).
Proof. unfold le_at. intros i j k. lia. Qed.

#[local] Instance le_at_total v : Total (le_at v).
Proof. unfold le_at. intros i j. lia. Qed.

Lemma argsort_permutation v : @np_argsort toy v ≡ₚ seq 0 (length v).
Proof. apply merge_sort_Permutation. Qed.

Lemma argsort_ascending v :
  StronglySorted (@ascending_by toy v) (@np_argsort toy v).
Proof.
  assert (∀ l, StronglySorted (le_at v) l → StronglySorted (@ascending_by toy v) l)
    as Hmono.
  { induction 1 as [|i l Hl IH Hi]; constructor; [done|].
    eapply Forall_impl; [exact Hi|]. intros j Hij vi vj Hvi Hvj.
    unfold le_at in Hij.
    by rewrite (list_lookup_total_correct _ _ _ Hvi),
               (list_lookup_total_correct _ _ _ Hvj) in Hij. }
  apply Hmono, StronglySorted_merge_sort; apply _.
Qed.

End ToyFacts.

(** * Runs on concrete data *)

Module ToyRuns.
Import Toy.
#[local] Existing Instance toy.

Example init_partial :
  (@init toy {[ "max_depth"%string := PyInt 3 ]}).2 =
  [InitBanner; InitNEstimators (PyInt 100); InitMaxDepth (PyInt 3);
   InitMinSamplesSplit (PyInt 2); InitRandomState (PyInt 42)] ∧
  hp_n_jobs (model (@init toy {[ "max_depth"%string := PyInt 3 ]}).1) = (-1)%Z.
Proof. split; reflexivity. Qed.

Example init_unvalidated :
  n_estimators (@init toy {[ "n_estimators"%string := PyStr "many" ]}).1 =
  PyStr "many".
Proof. reflexivity. Qed.

Example fit_then_predict :
  result (@predict toy X_test trained_once) = Return [0; 1]%Z.
Proof. reflexivity. Qed.

Example fit_output_wide :
  output (@fit toy 7%Z X_wide y_wide fresh) =
  [FitStart; FitShapes [2; 6] [2]; FitClasses [0; 1]%Z; FitStandardizing;
   FitTraining (PyInt 100); FitCompleted; FitAccuracy 10000%Z;
   FitNumFeatures 6; FitNumSamples 2; FitTopHeader;
   FitFeature 4 12%Z; FitFeature 1 8%Z; FitFeature 5 6%Z;
   FitFeature 3 4%Z; FitFeature 2 4%Z].
Proof. reflexivity. Qed.

(** C1 at the concrete data. *)
Lemma predict_one_label_per_row_witness :
  result (@fit toy 7%Z X_train y_train fresh) = Return tt ∧
  ∃ labels,
    result (@predict toy X_test trained_once) = Return labels ∧
    length labels = length X_test ∧
    ∀ i row, X_test !! i = Some row →
      labels !! i =
        Some (@predict_row toy (model trained_once)
                (@scale_row toy (scaler trained_once) row)).
Proof.
  split; [reflexivity|].
  apply (@predict_one_label_per_row toy
           ToyFacts.np_array_ndarray ToyFacts.fit_transform_learns
           ToyFacts.scale_row_length ToyFacts.transform_rows
           ToyFacts.rf_fit_trains ToyFacts.rf_score_pure
           ToyFacts.rf_predict_rows
           7%Z fresh X_train y_train X_train X_test); reflexivity.
Defined.

(** C2 at the concrete data: different ambient randomness, one dictionary
    with an extra key. *)
Lemma same_seed_same_predictions_witness :
  random_state (@init toy params_a).1 = PyInt 0 ∧
  result (@predict toy X_test (final (@fit toy 1%Z X_train y_train (@init toy params_a).1))) =
  result (@predict toy X_test (final (@fit toy 2%Z X_train y_train (@init toy params_b).1))) ∧
  result (@predict_proba toy X_test (final (@fit toy 1%Z X_train y_train (@init toy params_a).1))) =
  result (@predict_proba toy X_test (final (@fit toy 2%Z X_train y_train (@init toy params_b).1))).
Proof.
  split; [reflexivity|].
  apply (@same_seed_same_predictions toy ToyFacts.rf_fit_seeded
           params_a params_b 1%Z 2%Z 0%Z X_train y_train X_test); reflexivity.
Defined.

(** C3 at the concrete data. *)
Lemma predict_twice_same_witness :
  result (@predict toy X_test (final (@predict toy X_test trained_once))) =
    result (@predict toy X_test trained_once) ∧
  output (@predict toy X_test (final (@predict toy X_test trained_once))) =
    output (@predict toy X_test trained_once) ∧
  final (@predict toy X_test (final (@predict toy X_test trained_once))) =
    final (@predict toy X_test trained_once).
Proof.
  exact (@predict_twice_same toy ToyFacts.transform_pure ToyFacts.rf_predict_pure
           X_test trained_once).
Defined.

(** C5 at the concrete data. *)
Lemma predict_before_fit_raises_witness :
  is_raise (result (@predict toy X_test fresh)) = true ∧
  is_raise (result (@predict_proba toy X_test fresh)) = true.
Proof.
  apply (@predict_before_fit_raises toy ToyFacts.StandardScaler_unfitted
           ToyFacts.transform_check_is_fitted ToyFacts.transform_pure
           fresh X_test).
  apply (@never_fitted_init toy ∅).
Defined.

(** C7 at the concrete data. *)
Lemma predict_uses_training_statistics_witness :
  result (@fit toy 7%Z X_train y_train fresh) = Return tt ∧
  ∃ Xtr' Xtr_scaled,
    @np_array toy X_train = Return Xtr' ∧
    @fit_transform toy (scaler fresh) Xtr' = (Return Xtr_scaled, scaler trained_once) ∧
    ∀ X X', @np_array toy X = Return X' →
      scaler (final (@predict toy X trained_once)) = scaler trained_once ∧
      result (@predict toy X trained_once) =
        match (@transform toy (scaler trained_once) X').1 with
        | Return X_scaled => (@rf_predict toy (model trained_once) X_scaled).1
        | Raise e => Raise e
        end ∧
      (@check_array toy X' = true → ncols X' = ncols Xtr' →
       result (@predict toy X trained_once) =
         (@rf_predict toy (model trained_once)
            (@scale_row toy (scaler trained_once) <$> X')).1).
Proof.
  split; [reflexivity|].
  apply (@predict_uses_training_statistics toy ToyFacts.fit_transform_learns
           ToyFacts.transform_pure ToyFacts.transform_rows
           7%Z fresh X_train y_train).
  reflexivity.
Defined.

(** C8: a second completed [fit] on other data replaces the scaler and the
    model that the first [fit] had put in the wrapper. *)
Lemma refit_replaces_fitted_state :
  result (@fit toy 7%Z X_train y_train fresh) = Return tt ∧
  result (@fit toy 7%Z X_other y_other trained_once) = Return tt ∧
  scaler trained_once = Some [5; 25]%Z ∧
  scaler (final (@fit toy 7%Z X_other y_other trained_once)) = Some [200; 8]%Z ∧
  scaler (final (@fit toy 7%Z X_other y_other trained_once)) ≠ scaler trained_once ∧
  model (final (@fit toy 7%Z X_other y_other trained_once)) ≠ model trained_once.
Proof.
  repeat split; try reflexivity; vm_compute; intros [=].
Qed.

(** C8, as amended, at the concrete data. *)
Lemma fit_lifecycle_witness :
  (@scaler_fitted toy (scaler (@init toy params_a).1) = false ∧
   @forest_fitted toy (model (@init toy params_a).1) = false) ∧
  (result (@fit toy 7%Z X_other y_other trained_once) = Return tt →
   fitted (final (@fit toy 7%Z X_other y_other trained_once)) = true ∧
   ∃ X' y' X_scaled,
     @np_array toy X_other = Return X' ∧ @np_array_labels toy y_other = Return y' ∧
     @fit_transform toy (scaler trained_once) X' =
       (Return X_scaled, scaler (final (@fit toy 7%Z X_other y_other trained_once))) ∧
     @rf_fit toy 7%Z (model trained_once) X_scaled y' =
       (Return tt, model (final (@fit toy 7%Z X_other y_other trained_once)))) ∧
  (fitted trained_once = true →
   fitted (final (@predict toy X_test trained_once)) = true ∧
   fitted (final (@predict_proba toy X_test trained_once)) = true).
Proof.
  exact (@fit_lifecycle toy ToyFacts.StandardScaler_unfitted
           ToyFacts.RandomForestClassifier_unfitted ToyFacts.fit_transform_fits
           ToyFacts.rf_fit_fits ToyFacts.rf_score_pure ToyFacts.transform_pure
           ToyFacts.rf_predict_pure ToyFacts.rf_predict_proba_pure
           params_a 7%Z X_other y_other trained_once X_test).
Defined.

(** C9 at the concrete data: six features, five reported. *)
Lemma fit_reports_top_five_witness :
  result (@fit toy 7%Z X_wide y_wide fresh) = Return tt ∧
  ∃ pre vals,
    output (@fit toy 7%Z X_wide y_wide fresh) =
      pre ++ FitTopHeader ::
        zip_with FitFeature (@top_indices toy [2; 8; 4; 4; 12; 6]%Z) vals ∧
    @top_indices toy [2; 8; 4; 4; 12; 6]%Z =
      reverse (lastn 5 (@np_argsort toy [2; 8; 4; 4; 12; 6]%Z)) ∧
    Forall2 (λ i v, [2; 8; 4; 4; 12; 6]%Z !! i = Some v)
      (@top_indices toy [2; 8; 4; 4; 12; 6]%Z) vals ∧
    length vals = 5 `min` 6 ∧
    NoDup (@top_indices toy [2; 8; 4; 4; 12; 6]%Z) ∧
    (∀ i j vi vj, i < j → vals !! i = Some vi → vals !! j = Some vj →
                  (vj ≤ vi)%Z) ∧
    (∀ k v w, [2; 8; 4; 4; 12; 6]%Z !! k = Some v →
              k ∉ @top_indices toy [2; 8; 4; 4; 12; 6]%Z → w ∈ vals →
              (v ≤ w)%Z).
Proof.
  split; [reflexivity|].
  apply (@fit_reports_top_five toy 7%Z X_wide y_wide fresh [2; 8; 4; 4; 12; 6]%Z).
  - reflexivity.
  - reflexivity.
  - apply ToyFacts.argsort_permutation.
  - apply ToyFacts.argsort_ascending.
Defined.

(** C10 at the concrete data. *)
Lemma predict_frame_witness :
  final (@predict toy X_test trained_once) = trained_once ∧
  final (@predict_proba toy X_test trained_once) = trained_once.
Proof.
  exact (@predict_frame toy ToyFacts.transform_pure ToyFacts.rf_predict_pure
           ToyFacts.rf_predict_proba_pure X_test trained_once).
Defined.

End ToyRuns.

(** * Further runs on concrete data *)

Module ToyExtras.
Import Toy.
#[local] Existing Instance toy.

(** X2 at the concrete data. *)
Lemma fit_completes_witness :
  ∃ report,
    @fit toy 7%Z X_train y_train fresh =
      (Return tt,
       set_model (model trained_once) (set_scaler (scaler trained_once) fresh),
       [FitStart; FitShapes [length X_train; ncols X_train] [length y_train];
        FitClasses (@np_unique toy y_train); FitStandardizing;
        FitTraining (n_estimators fresh); FitCompleted; FitAccuracy 10000%Z;
        FitNumFeatures (ncols X_train); FitNumSamples (length X_train)]
       ++ report) ∧
    match @feature_importances_ toy (model trained_once) with
    | Some imps =>
        ∃ vals, Forall2 (λ i v, imps !! i = Some v) (top_indices imps) vals ∧
                report = FitTopHeader :: zip_with FitFeature (top_indices imps) vals
    | None => report = []
    end.
Proof.
  apply (@fit_completes toy 7%Z X_train y_train fresh X_train y_train
           (center (means X_train) <$> X_train) (scaler trained_once)
           (model trained_once) 10000%Z (model trained_once));
    try reflexivity.
  - discriminate.
  - intros imps _. eapply Forall_impl.
    + apply Forall_forall. intros i Hi. exact Hi.
    + intros i Hi. simpl in Hi.
      rewrite (ToyFacts.argsort_permutation imps), elem_of_seq in Hi. lia.
Defined.

(** X3 at the concrete data: rows of unequal length. *)
Lemma fit_coercion_failure_witness :
  @np_array toy X_ragged = Raise ValueError ∧
  @fit toy 7%Z X_ragged y_train trained_once =
    (Raise ValueError, trained_once, [FitStart]).
Proof.
  split; [reflexivity|].
  apply (@fit_coercion_failure toy 7%Z X_ragged y_train trained_once ValueError).
  left. reflexivity.
Defined.


(** X7 at the concrete data. *)
Lemma init_ignores_other_keys_witness :
  @init toy params_b = @init toy params_a.
Proof.
  apply (@init_ignores_other_keys toy params_a "verbose"%string (PyBool true));
    discriminate.
Defined.

End ToyExtras.

(** * The executable library's probabilities *)

Module ToyProbabilities.
Import Toy.
#[local] Existing Instance toy.

Definition total (row : list Z) : Z := foldr Z.add 0%Z row.

Lemma unique_distinct (y : list Z) :
  NoDup (unique y) ∧ ∀ c, c ∈ unique y ↔ c ∈ y.
Proof.
  unfold unique. split.
  - rewrite merge_sort_Permutation. apply NoDup_remove_dups.
  - intros c. by rewrite merge_sort_Permutation, elem_of_remove_dups.
Qed.

Lemma unique_ext (l1 l2 : list Z) :
  (∀ x, x ∈ l1 ↔ x ∈ l2) → unique l1 = unique l2.
Proof.
  intros H. unfold unique.
  apply (Sorted_unique Z.le); [apply Sorted_merge_sort, _..|].
  rewrite !merge_sort_Permutation.
  apply NoDup_Permutation; [apply NoDup_remove_dups..|].
  intros x. by rewrite !elem_of_remove_dups.
Qed.

Lemma forest_fit_inv g m X y m' :
  forest_fit g m X y = (Return tt, m') →
  valid X = true ∧ length X = length y ∧
  ∃ k, trained m' = Some (width X, rotate k (zip X y)).
Proof.
  unfold forest_fit.
  destruct (valid X) eqn:Hv; simpl; [|done].
  destruct (length X =? length y) eqn:Hl; [|done].
  apply Nat.eqb_eq in Hl. intros [= <-]. simpl. eauto.
Qed.

Lemma rf_fit_classes g m (X : list (list Z)) (y : list Z) m' :
  @rf_fit toy g m X y = (Return tt, m') →
  @forest_fitted toy m' = true ∧ @classes_ toy m' = @np_unique toy y.
Proof.
  intros (Hv & Hl & k & Hk)%forest_fit_inv. simpl. unfold classes.
  rewrite Hk. split; [done|]. apply unique_ext. intros x.
  rewrite <-(snd_zip X y) at 2 by lia.
  rewrite !list_elem_of_fmap. by setoid_rewrite elem_of_rotate.
Qed.

Lemma rf_predict_proba_width m (X : list (list Z)) (P : list (list Z)) :
  @forest_fitted toy m = true → (@rf_predict_proba toy m X).1 = Return P →
  Forall (λ row, length row = length (@classes_ toy m)) P.
Proof.
  simpl. unfold guarded. destruct (trained m) as [[w d]|] eqn:Ht; [|done].
  intros _. destruct (valid _ && _); [|done]. simpl. intros [= <-].
  apply Forall_fmap, Forall_forall. intros r _. simpl.
  unfold proba_of. by rewrite length_fmap.
Qed.

Lemma nearest_elem (data : list (list Z * Z)) r :
  data ≠ [] → nearest data r ∈ data.*2.
Proof.
  destruct data as [|[r0 l0] rest]; [done|]. intros _. simpl.
  generalize (dist r r0). intros d0. revert d0 l0.
  induction rest as [|[r1 l1] rest IH]; intros d0 l0; simpl; [by left|].
  destruct (dist r r1 <? d0)%Z.
  - right. apply IH.
  - specialize (IH d0 l0). rewrite !elem_of_cons in *. tauto.
Qed.

Lemma onehot_total (cs : list Z) (c : Z) :
  NoDup cs → c ∈ cs →
  total ((λ x, if (x =? c)%Z then 1 else 0)%Z <$> cs) = 1%Z.
Proof.
  unfold total.
  assert (∀ l : list Z, c ∉ l →
    foldr Z.add 0%Z ((λ x, if (x =? c)%Z then 1 else 0)%Z <$> l) = 0%Z) as Hzero.
  { induction l as [|x l IH]; [done|]. rewrite not_elem_of_cons. intros [Hx Hl].
    csimpl. rewrite (IH Hl). destruct (Z.eqb_spec x c); [congruence|done]. }
  induction 1 as [|x l Hx Hl IH]; [by intros ?%elem_of_nil|].
  rewrite elem_of_cons. csimpl. destruct (Z.eqb_spec x c) as [->|Hne].
  - intros _. by rewrite (Hzero l Hx).
  - intros [?|Hc]; [congruence|]. by rewrite (IH Hc).
Qed.

Lemma rf_fit_normalizes g m (X : list (list Z)) (y : list Z) m' :
  @rf_fit toy g m X y = (Return tt, m') →
  ∀ (X' : list (list Z)) (P : list (list Z)),
    (@rf_predict_proba toy m' X').1 = Return P →
    Forall (@sums_to_one toy total eq 1%Z) P.
Proof.
  intros Hfit X' P. destruct (rf_fit_classes _ _ _ _ _ Hfit) as [_ Hcl].
  apply forest_fit_inv in Hfit as (Hv & Hl & k & Hk).
  simpl. unfold guarded. rewrite Hk.
  destruct (valid _ && _); [|done]. simpl. intros [= <-].
  apply Forall_fmap, Forall_forall. intros r _. simpl.
  unfold sums_to_one, proba_of. simpl.
  destruct (unique_distinct y) as [Hnd Hel]. simpl in Hcl. rewrite Hcl.
  apply onehot_total; [done|]. apply Hel.
  unfold label_of. rewrite Hk.
  assert (rotate k (zip X y) ≠ []) as Hne.
  { intros Hnil%(f_equal length). rewrite length_rotate, length_zip in Hnil.
    destruct X as [|r0 X]; [done|]. destruct y as [|l0 y]; [done|]. done. }
  pose proof (nearest_elem _ r Hne) as Hin.
  apply list_elem_of_fmap in Hin as ([r' l'] & -> & Hin). simpl.
  rewrite elem_of_rotate in Hin.
  rewrite <-(snd_zip X y) by lia. apply list_elem_of_fmap. by exists (r', l').
Qed.

Lemma rf_predict_proba_rows m (X : list (list Z)) :
  @forest_fitted toy m = true → @check_array toy X = true →
  ncols X = @n_features_in_ toy m →
  ∃ P, (@rf_predict_proba toy m X).1 = Return P ∧ length P = length X.
Proof.
  intros Hm HX Hn. exists (proba_of m <$> X).
  split; [by apply ToyFacts.guarded_rows|by rewrite length_fmap].
Qed.

Example predict_proba_run_toy :
  result (@predict_proba toy X_test trained_once) = Return [[1; 0]; [0; 1]]%Z.
Proof. reflexivity. Qed.

(** C4 at the concrete data: sums in [Z], closeness is equality. *)
Lemma predict_proba_rows_witness :
  result (@fit toy 7%Z X_train y_train fresh) = Return tt ∧
  ∃ classes : list Z,
    NoDup classes ∧ (∀ c, c ∈ classes ↔ c ∈ y_train) ∧
    (∀ P, result (@predict_proba toy X_test trained_once) = Return P →
          Forall (λ row, @sums_to_one toy total eq 1%Z row ∧
                         length row = length classes) P) ∧
    (@check_array toy X_test = true →
     @check_array toy (@scale_row toy (scaler trained_once) <$> X_test) = true →
     ncols X_test = ncols X_train →
     ∃ P, result (@predict_proba toy X_test trained_once) = Return P ∧
          length P = length X_test).
Proof.
  split; [reflexivity|].
  apply (@predict_proba_rows toy total eq 1%Z
           unique_distinct rf_fit_classes ToyFacts.rf_score_pure
           rf_predict_proba_width rf_fit_normalizes
           ToyFacts.np_array_ndarray ToyFacts.fit_transform_learns
           ToyFacts.scale_row_length ToyFacts.transform_rows
           ToyFacts.rf_fit_trains rf_predict_proba_rows
           7%Z fresh X_train y_train X_train y_train X_test); reflexivity.
Defined.

End ToyProbabilities.
